(** * The Affectiva Emotion-as-a-Service client ([affectiva/api.py])

    A shallow embedding of the [EmotionAPI] class.  Every method of the class
    is a computation in a state-and-exception monad over an explicit [world]:
    the process environment, the local file system with its open handles, the
    remote service (an oracle answering each request from the history of the
    requests made so far) and the trace of the effects performed. *)

From Stdlib Require Import ZArith String Ascii List Bool Lia.
From stdpp Require Import base option list gmap strings pretty.

Set Warnings "-register-all".

Local Open Scope string_scope.
Local Open Scope Z_scope.
Local Open Scope list_scope.

(** ** Python values *)

(** The values the client handles are the ones [json.loads] produces: [None],
    booleans, integers, strings, lists and dicts with string keys.  A dict is
    the sequence of its items in insertion order, the keys pairwise distinct.
    A string is its sequence of code points, each below 256. *)
Inductive json : Type :=
| JNull
| JBool (b : bool)
| JInt (n : Z)
| JStr (s : string)
| JList (l : list json)
| JDict (d : list (string * json)).

(** The exceptions the client raises, or lets through, each under the class
    it is raised with.  [ValueError msg] is the exception the code of the
    client raises itself, with the message [msg].  [JSONDecodeError] is what
    [resp.json()] raises and [RequestException] what a call of [requests]
    raises; in Python the first, and some of the second (an invalid URL),
    are subclasses of [ValueError] as well. *)
Inductive exn : Type :=
| ValueError (msg : string)
| KeyError (key : string)
| TypeError
| OSError (path : string)
| HTTPError (status : Z)
| JSONDecodeError
| RequestException.

Inductive result (A : Type) : Type :=
| Ok (a : A)
| Raise (e : exn).
Arguments Ok {A} a.
Arguments Raise {A} e.

Fixpoint dict_get (d : list (string * json)) (k : string) : option json :=
  match d with
  | [] => None
  | (k', v) :: d' => if String.eqb k' k then Some v else dict_get d' k
  end.

(** [v[k]] for a string key [k]: a dict without the key raises [KeyError],
    anything that is not a dict raises [TypeError]. *)
Definition getitem (v : json) (k : string) : result json :=
  match v with
  | JDict d => match dict_get d k with Some x => Ok x | None => Raise (KeyError k) end
  | _ => Raise TypeError
  end.

Fixpoint chars (s : string) : list json :=
  match s with
  | EmptyString => []
  | String c s' => JStr (String c EmptyString) :: chars s'
  end.

(** [for x in v]: a list yields its elements, a dict its keys, a string its
    characters; the other values are not iterable. *)
Definition py_iter (v : json) : result (list json) :=
  match v with
  | JList l => Ok l
  | JDict d => Ok (map (fun kv => JStr (fst kv)) d)
  | JStr s => Ok (chars s)
  | _ => Raise TypeError
  end.

(** [v == s] for a string [s]. *)
Definition eq_str (v : json) (s : string) : bool :=
  match v with
  | JStr t => String.eqb t s
  | _ => false
  end.

(** Truth value of an optional string argument: [None] and [''] are false. *)
Definition truthy (o : option string) : bool :=
  match o with
  | Some (String _ _) => true
  | _ => false
  end.

(** ** Requests and responses *)

Inductive http_method : Type := GET | POST | PATCH | PUT | DELETE.

(** One part of a multipart body: [(filename, content)] or
    [(filename, content, mimetype)]; for an open file the content is what the
    handle reads. *)
Record file_part : Type := mk_part {
  part_filename : option string;
  part_content : string;
  part_mimetype : option string }.

(** A call of [requests.get], [post], [patch], [put] or [delete] with its
    arguments: [auth] is the argument [auth=], [None] when the call has none.
    What the library adds to the request by itself (proxies, certificates,
    credentials of a netrc file) is not part of it. *)
Record request : Type := mk_request {
  method : http_method;
  url : json;
  auth : option (string * string);
  headers : list (string * string);
  data : list (string * json);
  files : list (string * file_part) }.

(** [json_body] is what [resp.json()] returns, [None] when the body is not
    JSON and the call raises. *)
Record response : Type := mk_response {
  status_code : Z;
  content : string;
  json_body : option json }.

Inductive outcome : Type :=
| Answers (r : response)
| Fails.

(** ** The world *)

Inductive open_mode : Type := RB | WB.

(** The effects of the code of the client: [EnvGet] is a read of
    [os.environ] by that code, [EvHttp] a call of [requests]. *)
Inductive event : Type :=
| EnvGet (name : string)
| EvOpen (fd : nat) (path : string) (mode : open_mode)
| EvWrite (fd : nat) (bytes : string)
| EvClose (fd : nat)
| EvHttp (r : request).

Record world : Type := mk_world {
  environ : gmap string string;
  fs : gmap string string;
  writable : string -> bool;
  handles : gmap nat string;
  next_fd : nat;
  server : list request -> request -> outcome;
  trace : list event }.

Fixpoint http_log (t : list event) : list request :=
  match t with
  | [] => []
  | EvHttp r :: t' => r :: http_log t'
  | _ :: t' => http_log t'
  end.

Fixpoint env_reads (t : list event) : list string :=
  match t with
  | [] => []
  | EnvGet n :: t' => n :: env_reads t'
  | _ :: t' => env_reads t'
  end.

Definition log (e : event) (w : world) : world :=
  mk_world (environ w) (fs w) (writable w) (handles w) (next_fd w) (server w)
           (trace w ++ [e]).

Definition set_environ (env : gmap string string) (w : world) : world :=
  mk_world env (fs w) (writable w) (handles w) (next_fd w) (server w) (trace w).

(** ** The monad *)

Definition M (A : Type) : Type := world -> result A * world.

Definition ret {A} (a : A) : M A := fun w => (Ok a, w).

Definition raise {A} (e : exn) : M A := fun w => (Raise e, w).

Definition bind {A B} (m : M A) (k : A -> M B) : M B :=
  fun w => match m w with
           | (Ok a, w') => k a w'
           | (Raise e, w') => (Raise e, w')
           end.

Definition lift {A} (r : result A) : M A := fun w => (r, w).

Notation "x <- m ;; k" := (bind m (fun x => k))
  (at level 100, m at next level, right associativity).
Notation "m ;;; k" := (bind m (fun _ => k))
  (at level 100, right associativity).

(** [os.environ.get(name, None)] *)
Definition environ_get (name : string) : M (option string) :=
  fun w => (Ok (environ w !! name), log (EnvGet name) w).

Definition alloc (path : string) (mode : open_mode) (w : world) : world :=
  mk_world (environ w)
           (match mode with WB => <[path := ""]> (fs w) | RB => fs w end)
           (writable w) (<[next_fd w := path]> (handles w)) (S (next_fd w))
           (server w) (trace w ++ [EvOpen (next_fd w) path mode]).

(** [open(path, 'rb')]: the file has to exist. *)
Definition open_rb (path : string) : M nat :=
  fun w => match fs w !! path with
           | Some _ => (Ok (next_fd w), alloc path RB w)
           | None => (Raise (OSError path), w)
           end.

(** [open(path, 'wb')]: creates the file, or truncates it, at once. *)
Definition open_wb (path : string) : M nat :=
  fun w => if writable w path
           then (Ok (next_fd w), alloc path WB w)
           else (Raise (OSError path), w).

(** What an upload reads through the handle. *)
Definition read_all (fd : nat) (w : world) : string :=
  match handles w !! fd with
  | Some p => default "" (fs w !! p)
  | None => ""
  end.

Definition write (fd : nat) (bytes : string) : M unit :=
  fun w => match handles w !! fd with
           | Some p =>
               (Ok tt,
                mk_world (environ w)
                         (<[p := default "" (fs w !! p) +:+ bytes]> (fs w))
                         (writable w) (handles w) (next_fd w) (server w)
                         (trace w ++ [EvWrite fd bytes]))
           | None => (Raise (ValueError "I/O operation on closed file."), w)
           end.

Definition close (fd : nat) (w : world) : world :=
  mk_world (environ w) (fs w) (writable w) (delete fd (handles w)) (next_fd w)
           (server w) (trace w ++ [EvClose fd]).

(** [with acquire as f: body f]: the handle is closed when the block is
    left, by a return or by an exception. *)
Definition with_open {A} (acquire : M nat) (body : nat -> M A) : M A :=
  fun w => match acquire w with
           | (Ok fd, w1) => let (r, w2) := body fd w1 in (r, close fd w2)
           | (Raise e, w1) => (Raise e, w1)
           end.

(** [requests.request(...)]: the request is sent and the service answers, or
    the call raises.  The oracle [server] stands for the library, with the
    configuration it takes by itself from the process (proxy and certificate
    variables, a netrc file), the network and the service. *)
Definition send (r : request) : M response :=
  fun w => match server w (http_log (trace w)) r with
           | Answers resp => (Ok resp, log (EvHttp r) w)
           | Fails => (Raise RequestException, log (EvHttp r) w)
           end.

Definition resp_json (r : response) : M json :=
  match json_body r with
  | Some j => ret j
  | None => raise JSONDecodeError
  end.

Definition read (fd : nat) : M string := fun w => (Ok (read_all fd w), w).

(** ** Library functions the client calls *)

Definition slash : ascii := ascii_of_nat 47.
Definition LF : string := String (ascii_of_nat 10) EmptyString.

Fixpoint ends_with_slash (s : string) : bool :=
  match s with
  | EmptyString => false
  | String c EmptyString => Ascii.eqb c slash
  | String _ s' => ends_with_slash s'
  end.

(** [os.path.join(a, b)] of [posixpath], for a string [a]: an absolute [b]
    replaces [a], and the separator is added unless [a] is empty or ends
    with one.  A [b] that is not a string raises [TypeError]. *)
Definition os_path_join (a : string) (b : json) : result string :=
  match b with
  | JStr (String c _ as b') =>
      if Ascii.eqb c slash then Ok b'
      else match a with
           | EmptyString => Ok b'
           | _ => if ends_with_slash a then Ok (a +:+ b')
                  else Ok (a +:+ "/" +:+ b')
           end
  | JStr EmptyString =>
      match a with
      | EmptyString => Ok ""
      | _ => if ends_with_slash a then Ok a else Ok (a +:+ "/")
      end
  | _ => Raise TypeError
  end.

Fixpoint basename_from (acc p : string) : string :=
  match p with
  | EmptyString => acc
  | String c p' => if Ascii.eqb c slash then basename_from "" p'
                   else basename_from (acc +:+ String c EmptyString) p'
  end.

(** [os.path.basename(p)]: what follows the last separator. *)
Definition os_path_basename (p : string) : string := basename_from "" p.

(** *** [repr] and [str] *)

Definition quote1 : ascii := ascii_of_nat 39.
Definition quote2 : ascii := ascii_of_nat 34.
Definition backslash : ascii := ascii_of_nat 92.

Fixpoint contains (c : ascii) (s : string) : bool :=
  match s with
  | EmptyString => false
  | String c' s' => Ascii.eqb c c' || contains c s'
  end.

Definition hex_digit (n : nat) : ascii :=
  match String.get n "0123456789abcdef" with
  | Some c => c
  | None => "0"%char
  end.

(** One character inside a string literal delimited by [q]. *)
Definition repr_char (q c : ascii) : string :=
  let n := nat_of_ascii c in
  if Ascii.eqb c q || Ascii.eqb c backslash then String backslash (String c EmptyString)
  else if Nat.eqb n 9 then String backslash "t"
  else if Nat.eqb n 10 then String backslash "n"
  else if Nat.eqb n 13 then String backslash "r"
  else if Nat.ltb n 32 || (Nat.leb 127 n && Nat.leb n 160) || Nat.eqb n 173
  then String backslash (String "x" (String (hex_digit (Nat.div n 16))
                                    (String (hex_digit (Nat.modulo n 16)) EmptyString)))
  else String c EmptyString.

Fixpoint repr_chars (q : ascii) (s : string) : string :=
  match s with
  | EmptyString => EmptyString
  | String c s' => repr_char q c +:+ repr_chars q s'
  end.

(** [repr(s)] of a string: single quotes, unless the string holds a single
    quote and no double quote. *)
Definition repr_str (s : string) : string :=
  let q := if contains quote1 s && negb (contains quote2 s) then quote2 else quote1 in
  String q (repr_chars q s +:+ String q EmptyString).

Fixpoint join (sep : string) (l : list string) : string :=
  match l with
  | [] => ""
  | [x] => x
  | x :: l' => x +:+ sep +:+ join sep l'
  end.

Fixpoint repr (v : json) : string :=
  match v with
  | JNull => "None"
  | JBool true => "True"
  | JBool false => "False"
  | JInt n => pretty n
  | JStr s => repr_str s
  | JList l => "[" +:+ join ", " (map repr l) +:+ "]"
  | JDict d =>
      "{" +:+ join ", " (map (fun kv => repr_str (fst kv) +:+ ": " +:+ repr (snd kv)) d)
          +:+ "}"
  end.

(** [str(l)] of a list is its [repr]. *)
Definition str_list (l : list json) : string := repr (JList l).

(** ** The client *)

Definition ACCEPT_JSON : list (string * string) := [("Accept", "application/json")].

Definition EAAS_USER_ENV_VAR : string := "AFFECTIVA_API_USER".
Definition EAAS_PASS_ENV_VAR : string := "AFFECTIVA_API_PASSWORD".
Definition INDEX_SERVICE_URL : string := "https://index.affectiva.com".
Definition JOB_SERVICE_KEY : string := "jobs".

Definition SESSION_V0_JSON : string := "application/vnd.affectiva.session.v0+json".

Record EmotionAPI : Type := mk_api {
  _user : string;
  _password : string;
  _auth : string * string;
  _job_url : json }.

Section Client.

(** [http_error s] tells whether [raise_for_status] raises on a response of
    status [s]; the method belongs to the [requests] library, which rejects
    the client and server error statuses. *)
Variable http_error : Z -> bool.

Definition raise_for_status (r : response) : M unit :=
  if http_error (status_code r) then raise (HTTPError (status_code r)) else ret tt.

(** [arg if arg else os.environ.get(var, None)] *)
Definition arg_or_environ (arg : option string) (var : string) : M (option string) :=
  if truthy arg then ret arg else environ_get var.

Definition _get_job_service_url (version : string) : M json :=
  resp <- send (mk_request GET (JStr INDEX_SERVICE_URL) None ACCEPT_JSON [] []) ;;
  j <- resp_json resp ;;
  v <- lift (getitem j version) ;;
  lift (getitem v JOB_SERVICE_KEY).

Definition __init__ (user password : option string) (version : string) : M EmotionAPI :=
  u <- arg_or_environ user EAAS_USER_ENV_VAR ;;
  p <- arg_or_environ password EAAS_PASS_ENV_VAR ;;
  match u with
  | None => raise (ValueError "No username provided.")
  | Some u' =>
      match p with
      | None => raise (ValueError "No password provided.")
      | Some p' =>
          job_url <- _get_job_service_url version ;;
          ret (mk_api u' p' (u', p') job_url)
      end
  end.

Definition create_job (self : EmotionAPI) (media_path job_name : string)
    (extra_params : list (string * json)) : M json :=
  with_open (open_rb media_path) (fun video =>
    body <- read video ;;
    resp <- send (mk_request POST (_job_url self) (Some (_auth self)) ACCEPT_JSON
                    extra_params
                    [("entry_job[name]", mk_part None job_name None);
                     ("entry_job[input]",
                      mk_part (Some (os_path_basename media_path)) body None)]) ;;
    raise_for_status resp ;;;
    resp_json resp).

Definition query_job (self : EmotionAPI) (job_url : json) : M json :=
  resp <- send (mk_request GET job_url (Some (_auth self)) ACCEPT_JSON [] []) ;;
  raise_for_status resp ;;;
  resp_json resp.

Definition update_job (self : EmotionAPI) (job_url : json) (job_name : option string)
    : M json :=
  let data := match job_name with
              | Some n => [("entry_job[name]", JStr n)]
              | None => []
              end in
  resp <- send (mk_request PATCH job_url (Some (_auth self)) ACCEPT_JSON data []) ;;
  raise_for_status resp ;;;
  resp_json resp.

Definition download_representation (self : EmotionAPI) (representation : json)
    (output_dir : string) : M string :=
  file_name <- lift (getitem representation "file_name") ;;
  local_path <- lift (os_path_join output_dir file_name) ;;
  with_open (open_wb local_path) (fun fout =>
    media_url <- lift (getitem representation "media") ;;
    media_resp <- send (mk_request GET media_url (Some (_auth self)) [] [] []) ;;
    raise_for_status media_resp ;;;
    write fout (content media_resp)) ;;;
  ret local_path.

(** The loop of [download_results]: [None] when it runs to its end. *)
Fixpoint download_first (self : EmotionAPI) (content_type output_dir : string)
    (l : list json) : M (option string) :=
  match l with
  | [] => ret None
  | representation_json :: l' =>
      ct <- lift (getitem representation_json "content_type") ;;
      if eq_str ct content_type
      then (p <- download_representation self representation_json output_dir ;;
            ret (Some p))
      else download_first self content_type output_dir l'
  end.

Fixpoint content_types (l : list json) : M (list json) :=
  match l with
  | [] => ret []
  | x :: l' =>
      ct <- lift (getitem x "content_type") ;;
      cts <- content_types l' ;;
      ret (ct :: cts)
  end.

Definition no_match_message (content_type : string) (all_content_types : list json)
    : string :=
  "Could not match content_type '" +:+ content_type +:+ "'." +:+ LF +:+
  "Available content-types: " +:+ str_list all_content_types.

Definition download_results (self : EmotionAPI) (job_url : json)
    (content_type output_dir : string) : M string :=
  job_json <- query_job self job_url ;;
  result_json <- lift (getitem job_json "result") ;;
  all_representations_json <- lift (getitem result_json "representations") ;;
  l <- lift (py_iter all_representations_json) ;;
  found <- download_first self content_type output_dir l ;;
  match found with
  | Some p => ret p
  | None =>
      all_content_types <- content_types l ;;
      raise (ValueError (no_match_message content_type all_content_types))
  end.

(** The loop of [results], from the current value of [metrics]. *)
Fixpoint results_loop (self : EmotionAPI) (metrics : json) (l : list json) : M json :=
  match l with
  | [] => ret metrics
  | representation :: l' =>
      ct <- lift (getitem representation "content_type") ;;
      if eq_str ct SESSION_V0_JSON
      then (media_url <- lift (getitem representation "media") ;;
            media_resp <- send (mk_request GET media_url (Some (_auth self)) [] [] []) ;;
            raise_for_status media_resp ;;;
            metrics' <- resp_json media_resp ;;
            results_loop self metrics' l')
      else results_loop self metrics l'
  end.

Definition results (self : EmotionAPI) (job_url : json) : M json :=
  job_json <- query_job self job_url ;;
  result_json <- lift (getitem job_json "result") ;;
  representations <- lift (getitem result_json "representations") ;;
  l <- lift (py_iter representations) ;;
  results_loop self (JList []) l.

Definition jobs (self : EmotionAPI) : M json :=
  resp <- send (mk_request GET (_job_url self) (Some (_auth self)) ACCEPT_JSON [] []) ;;
  raise_for_status resp ;;;
  resp_json resp.

Definition add_annotation (self : EmotionAPI) (entry source key value : json) : M json :=
  annotations_url <- lift (getitem entry "annotations") ;;
  resp <- send (mk_request POST annotations_url (Some (_auth self)) ACCEPT_JSON
                  [("annotation[source]", source); ("annotation[key]", key);
                   ("annotation[value]", value)] []) ;;
  raise_for_status resp ;;;
  resp_json resp.

Fixpoint add_annotations (self : EmotionAPI) (entry : json) (annotations : list json)
    : M unit :=
  match annotations with
  | [] => ret tt
  | annotation :: rest =>
      source <- lift (getitem annotation "source") ;;
      key <- lift (getitem annotation "key") ;;
      value <- lift (getitem annotation "value") ;;
      add_annotation self entry source key value ;;;
      add_annotations self entry rest
  end.

(** The loop of [delete_annotation]; [and] does not look at the key of an
    annotation of another source. *)
Fixpoint delete_matching (self : EmotionAPI) (source key : string) (l : list json)
    : M unit :=
  match l with
  | [] => ret tt
  | a :: l' =>
      s <- lift (getitem a "source") ;;
      matches <- (if eq_str s source
                  then (k <- lift (getitem a "key") ;; ret (eq_str k key))
                  else ret false) ;;
      (if matches : bool
       then (self_url <- lift (getitem a "self") ;;
             resp <- send (mk_request DELETE self_url (Some (_auth self)) ACCEPT_JSON
                             [] []) ;;
             raise_for_status resp)
       else ret tt) ;;;
      delete_matching self source key l'
  end.

Definition delete_annotation (self : EmotionAPI) (entry : json) (source key : string)
    : M unit :=
  annotations_url <- lift (getitem entry "annotations") ;;
  annotations <- query_job self annotations_url ;;
  l <- lift (py_iter annotations) ;;
  delete_matching self source key l.

(** The file is opened while the [files] argument is built, before the
    lookup of the URL, and the method holds no [with] block and no call of
    [close]. *)
Definition add_representation (self : EmotionAPI) (entry : json)
    (media_path mimetype : string) : M json :=
  f <- open_rb media_path ;;
  representation_self <- lift (getitem entry "representation_self") ;;
  body <- read f ;;
  resp <- send (mk_request POST representation_self (Some (_auth self)) ACCEPT_JSON []
                  [("media", mk_part (Some media_path) body (Some mimetype))]) ;;
  raise_for_status resp ;;;
  resp_json resp.

Definition update_representation (self : EmotionAPI) (representation : json)
    (media_path mimetype : string) : M unit :=
  f <- open_rb media_path ;;
  representation_self <- lift (getitem representation "self") ;;
  body <- read f ;;
  resp <- send (mk_request PUT representation_self (Some (_auth self)) ACCEPT_JSON []
                  [("media", mk_part (Some media_path) body (Some mimetype))]) ;;
  raise_for_status resp.


(** ** Vocabulary of the statements *)

(** The status codes on which [requests] raises: 4xx and 5xx. *)
Definition requests_http_error (s : Z) : bool := (400 <=? s) && (s <? 600).

(** The credential the constructor resolves from an argument and a variable. *)
Definition resolve (arg : option string) (var : string) (env : gmap string string)
    : option string :=
  if truthy arg then arg else env !! var.

Definition log_all (es : list event) (w : world) : world :=
  mk_world (environ w) (fs w) (writable w) (handles w) (next_fd w) (server w)
           (trace w ++ es).

(** The service answers the requests [reqs], sent one after the other from
    the history [h], with the responses [resps]. *)
Fixpoint served (srv : list request -> request -> outcome) (h : list request)
    (reqs : list request) (resps : list response) : Prop :=
  match reqs, resps with
  | [], [] => True
  | r :: reqs', x :: resps' => srv h r = Answers x /\ served srv (h ++ [r]) reqs' resps'
  | _, _ => False
  end.

(** The authenticated requests of the methods. *)
Definition get_json (self : EmotionAPI) (u : json) : request :=
  mk_request GET u (Some (_auth self)) ACCEPT_JSON [] [].

Definition get_media (self : EmotionAPI) (u : json) : request :=
  mk_request GET u (Some (_auth self)) [] [] [].

Definition delete_req (self : EmotionAPI) (u : json) : request :=
  mk_request DELETE u (Some (_auth self)) ACCEPT_JSON [] [].

Definition patch_req (self : EmotionAPI) (u : json) (form : list (string * json))
    : request :=
  mk_request PATCH u (Some (_auth self)) ACCEPT_JSON form [].

Definition post_annotation (self : EmotionAPI) (u source key value : json) : request :=
  mk_request POST u (Some (_auth self)) ACCEPT_JSON
    [("annotation[source]", source); ("annotation[key]", key);
     ("annotation[value]", value)] [].

(** [v[k]] where the key is known to be there. *)
Definition field (k : string) (v : json) : json :=
  match getitem v k with Ok x => x | Raise _ => JNull end.

Definition field_is (k s : string) (v : json) : bool :=
  match getitem v k with Ok x => eq_str x s | Raise _ => false end.

(** The values at key [k] of the items of [l], when every item has the key. *)
Fixpoint fields (k : string) (l : list json) : option (list json) :=
  match l with
  | [] => Some []
  | v :: l' =>
      match getitem v k, fields k l' with
      | Ok x, Some xs => Some (x :: xs)
      | _, _ => None
      end
  end.

Definition none_is (s : string) (l : list json) : bool :=
  forallb (fun v => negb (eq_str v s)) l.

(** The parsed bodies of responses that all hold JSON. *)
Fixpoint json_bodies (l : list response) : option (list json) :=
  match l with
  | [] => Some []
  | x :: l' =>
      match json_body x, json_bodies l' with
      | Some j, Some js => Some (j :: js)
      | _, _ => None
      end
  end.

(** The request [add_annotations] sends for the item [a], when the item has
    its three keys. *)
Definition annotation_post (self : EmotionAPI) (u a : json) : option request :=
  match getitem a "source", getitem a "key", getitem a "value" with
  | Ok s, Ok k, Ok v => Some (post_annotation self u s k v)
  | _, _, _ => None
  end.

Fixpoint annotation_posts (self : EmotionAPI) (u : json) (l : list json)
    : option (list request) :=
  match l with
  | [] => Some []
  | a :: l' =>
      match annotation_post self u a, annotation_posts self u l' with
      | Some r, Some rs => Some (r :: rs)
      | _, _ => None
      end
  end.

(** The exception a call that sends a request, checks the status and parses
    the body raises on the outcome [o] of the request, if any. *)
Definition failure (o : outcome) : option exn :=
  match o with
  | Fails => Some RequestException
  | Answers x =>
      if http_error (status_code x) then Some (HTTPError (status_code x))
      else match json_body x with
           | Some _ => None
           | None => Some JSONDecodeError
           end
  end.

(** No request of [reqs], sent one after the other from the history [h],
    fails. *)
Fixpoint all_accepted (srv : list request -> request -> outcome) (h : list request)
    (reqs : list request) : bool :=
  match reqs with
  | [] => true
  | r :: reqs' =>
      match failure (srv h r) with
      | None => all_accepted srv (h ++ [r]) reqs'
      | Some _ => false
      end
  end.

Definition is_annotation (source key : string) (a : json) : bool :=
  field_is "source" source a && field_is "key" key a.

(** The handle [fd] has been closed in the trace [t]. *)
Definition closed_in (fd : nat) (t : list event) : bool :=
  existsb (fun e => match e with EvClose n => Nat.eqb n fd | _ => false end) t.

(** The call of the discovery: it has no argument [auth]. *)
Definition index_request : request :=
  mk_request GET (JStr INDEX_SERVICE_URL) None ACCEPT_JSON [] [].

(** The variables [__init__] reads for the arguments it is given. *)
Definition variables_read (user password : option string) : list string :=
  (if truthy user then [] else [EAAS_USER_ENV_VAR]) ++
  (if truthy password then [] else [EAAS_PASS_ENV_VAR]).

Definition is_credential_variable (name : string) : bool :=
  String.eqb name EAAS_USER_ENV_VAR || String.eqb name EAAS_PASS_ENV_VAR.

(** The reads of the two credential variables in the trace [t]. *)
Definition credential_reads (t : list event) : list string :=
  List.filter is_credential_variable (env_reads t).

(** Every call of [requests] a run of [m] makes has the credentials of
    [self] for its argument [auth]. *)
Definition authenticates {A} (self : EmotionAPI) (m : M A) : Prop :=
  forall w, exists reqs,
    http_log (trace (snd (m w))) = http_log (trace w) ++ reqs /\
    Forall (fun r => auth r = Some (_auth self)) reqs.

(** The form [update_job] sends. *)
Definition name_form (job_name : option string) : list (string * json) :=
  match job_name with
  | Some n => [("entry_job[name]", JStr n)]
  | None => []
  end.

(** What a method that sends a request, checks the status and returns the
    parsed body makes of the outcome of the request. *)
Definition reply (o : outcome) : result json :=
  match o with
  | Fails => Raise RequestException
  | Answers x =>
      if http_error (status_code x) then Raise (HTTPError (status_code x))
      else match json_body x with
           | Some j => Ok j
           | None => Raise JSONDecodeError
           end
  end.

(** The same for a method that checks the status and returns nothing. *)
Definition acknowledged (o : outcome) : result unit :=
  match o with
  | Fails => Raise RequestException
  | Answers x =>
      if http_error (status_code x) then Raise (HTTPError (status_code x)) else Ok tt
  end.

(** The requests of the uploads, for a file of content [c]. *)
Definition job_upload (self : EmotionAPI) (media_path job_name : string)
    (extra_params : list (string * json)) (c : string) : request :=
  mk_request POST (_job_url self) (Some (_auth self)) ACCEPT_JSON extra_params
    [("entry_job[name]", mk_part None job_name None);
     ("entry_job[input]", mk_part (Some (os_path_basename media_path)) c None)].

Definition media_upload (self : EmotionAPI) (m : http_method) (u : json)
    (media_path mimetype c : string) : request :=
  mk_request m u (Some (_auth self)) ACCEPT_JSON []
    [("media", mk_part (Some media_path) c (Some mimetype))].

(** The three values [add_annotations] reads from an item, [source] first. *)
Definition annotation_fields (a : json) : result (json * json * json) :=
  match getitem a "source" with
  | Raise e => Raise e
  | Ok s =>
      match getitem a "key" with
      | Raise e => Raise e
      | Ok k =>
          match getitem a "value" with
          | Raise e => Raise e
          | Ok v => Ok (s, k, v)
          end
      end
  end.

(** ** Concrete worlds *)

Definition answer (s : Z) (j : json) : outcome := Answers (mk_response s "" (Some j)).

Definition index_document : json :=
  JDict [("v1", JDict [("jobs", JStr "https://jobs.example/v1")])].

(** A service that knows the index document only. *)
Definition index_server (h : list request) (r : request) : outcome :=
  if eq_str (url r) INDEX_SERVICE_URL then answer 200 index_document
  else answer 404 JNull.

Definition world_of (env : gmap string string)
    (srv : list request -> request -> outcome) : world :=
  mk_world env ∅ (fun _ => true) ∅ 0%nat srv [].

Definition alice : EmotionAPI :=
  mk_api "alice" "secret" ("alice", "secret") (JStr "https://jobs.example/v1").

Definition job1_url : string := "https://jobs.example/v1/1".
Definition job2_url : string := "https://jobs.example/v1/2".
Definition annotations_url : string := "https://jobs.example/v1/1/annotations".
Definition representations_url : string := "https://jobs.example/v1/1/representations".

Definition representation (content_type file_name media self_url : string) : json :=
  JDict [("content_type", JStr content_type); ("file_name", JStr file_name);
         ("media", JStr media); ("self", JStr self_url)].

Definition csv_rep : json :=
  representation "application/csv" "metrics.csv"
    "https://media.example/1/metrics.csv" "https://jobs.example/v1/1/representations/1".
Definition session_rep_a : json :=
  representation SESSION_V0_JSON "a.json"
    "https://media.example/1/a.json" "https://jobs.example/v1/1/representations/2".
Definition session_rep_b : json :=
  representation SESSION_V0_JSON "b.json"
    "https://media.example/1/b.json" "https://jobs.example/v1/1/representations/3".

Definition job (self_url : string) (reps : list json) : json :=
  JDict [("self", JStr self_url); ("status", JStr "done");
         ("annotations", JStr annotations_url);
         ("representation_self", JStr representations_url);
         ("result", JDict [("representations", JList reps)])].

Definition job1 : json := job job1_url [csv_rep; session_rep_a; session_rep_b].
Definition job2 : json := job job2_url [csv_rep].

Definition metrics_a : json := JList [JDict [("joy", JInt 1)]].
Definition metrics_b : json := JList [JDict [("joy", JInt 2)]].

Definition annotation (source key value self_url : string) : json :=
  JDict [("source", JStr source); ("key", JStr key); ("value", JStr value);
         ("self", JStr self_url)].

Definition listed_annotations : list json :=
  [annotation "lab" "mood" "calm" "https://jobs.example/v1/1/annotations/1";
   annotation "lab" "light" "dim" "https://jobs.example/v1/1/annotations/2";
   annotation "web" "mood" "calm" "https://jobs.example/v1/1/annotations/3";
   annotation "lab" "mood" "tense" "https://jobs.example/v1/1/annotations/4"].

Definition new_annotation (key value : string) : json :=
  JDict [("source", JStr "lab"); ("key", JStr key); ("value", JStr value)].

Definition is_post (r : request) : bool :=
  match method r with POST => true | _ => false end.

Definition no_body (s : Z) : outcome := Answers (mk_response s "" None).

(** A service with two jobs.  The media of the CSV representation is gone,
    the second POST of an annotation is refused, and so is every upload of a
    representation. *)
Definition demo_server (h : list request) (r : request) : outcome :=
  match method r with
  | GET =>
      if eq_str (url r) INDEX_SERVICE_URL then answer 200 index_document
      else if eq_str (url r) job1_url then answer 200 job1
      else if eq_str (url r) job2_url then answer 200 job2
      else if eq_str (url r) "https://media.example/1/a.json" then answer 200 metrics_a
      else if eq_str (url r) "https://media.example/1/b.json" then answer 200 metrics_b
      else if eq_str (url r) annotations_url then answer 200 (JList listed_annotations)
      else no_body 404
  | POST =>
      if eq_str (url r) annotations_url
      then match List.filter is_post h with
           | [] => answer 201 (JDict [])
           | _ => no_body 500
           end
      else no_body 500
  | PATCH => answer 200 job1
  | PUT => answer 200 csv_rep
  | DELETE => no_body 204
  end.

Definition demo_world : world :=
  mk_world ∅ {[ "video2.mp4" := "bytes" ]} (fun _ => true) ∅ 0%nat demo_server [].

Definition ok_json (j : json) : response := mk_response 200 "" (Some j).

Definition result_of (reps : list json) : json := JDict [("representations", JList reps)].

Definition job1_reps : list json := [csv_rep; session_rep_a; session_rep_b].

Definition media_a : json := JStr "https://media.example/1/a.json".
Definition media_b : json := JStr "https://media.example/1/b.json".
Definition media_csv : json := JStr "https://media.example/1/metrics.csv".

(** An index service that answers with an error status and the document. *)
Definition unavailable_index_server (h : list request) (r : request) : outcome :=
  answer 503 index_document.

(** A service that refuses every request, with a JSON body. *)
Definition refused : response := mk_response 500 "" (Some (JDict [("error", JStr "refused")])).

Definition refusing_server (h : list request) (r : request) : outcome := Answers refused.

Definition job3_url : string := "https://jobs.example/v1/3".

(** A job whose second representation has no content type. *)
Definition job3 : json := job job3_url [session_rep_a; JDict [("file_name", JStr "b.json")]].

Definition csv_bytes : response := mk_response 200 "joy,1" None.

(** The service of [demo_server] with, this time, the media of the CSV
    representation there, the media of the second session representation
    gone, the fourth annotation impossible to delete and the uploads
    accepted, the one of [update_representation] with an empty body. *)
Definition second_server (h : list request) (r : request) : outcome :=
  match method r with
  | GET =>
      if eq_str (url r) "https://media.example/1/metrics.csv" then Answers csv_bytes
      else if eq_str (url r) "https://media.example/1/b.json" then no_body 500
      else if eq_str (url r) job3_url then answer 200 job3
      else demo_server h r
  | DELETE =>
      if eq_str (url r) "https://jobs.example/v1/1/annotations/4" then no_body 500
      else no_body 204
  | POST =>
      if eq_str (url r) "https://jobs.example/v1" then answer 201 job2
      else if eq_str (url r) representations_url then answer 201 csv_rep
      else demo_server h r
  | PUT => no_body 204
  | PATCH => demo_server h r
  end.

Definition second_world : world :=
  mk_world ∅ {[ "out/metrics.csv" := "old"; "video2.mp4" := "bytes";
             "clips/video3.mp4" := "frames" ]} (fun _ => true) ∅
           0%nat second_server [].

(** A world where no file can be opened for writing. *)
Definition read_only_world : world :=
  mk_world ∅ ∅ (fun _ => false) ∅ 0%nat demo_server [].

Definition absolute_rep : json :=
  representation "application/csv" "/tmp/metrics.csv"
    "https://media.example/1/metrics.csv" "https://jobs.example/v1/1/representations/1".

(** ** Properties *)

(** *** The monad and the primitives *)

Lemma bind_ok {A B} (m : M A) (k : A -> M B) w a w' :
  m w = (Ok a, w') -> bind m k w = k a w'.
Proof. intros H. unfold bind. now rewrite H. Qed.

Lemma bind_raise {A B} (m : M A) (k : A -> M B) w e w' :
  m w = (Raise e, w') -> bind m k w = (Raise e, w').
Proof. intros H. unfold bind. now rewrite H. Qed.

Lemma bind_assoc {A B C} (m : M A) (f : A -> M B) (k : B -> M C) w :
  bind (bind m f) k w = bind m (fun a => bind (f a) k) w.
Proof. unfold bind. destruct (m w) as [[a|e] w']; reflexivity. Qed.

Lemma http_log_app t t' : http_log (t ++ t') = http_log t ++ http_log t'.
Proof.
  induction t as [|e t IH]; simpl; [reflexivity|].
  destruct e; simpl; now rewrite IH.
Qed.

Lemma env_reads_app t t' : env_reads (t ++ t') = env_reads t ++ env_reads t'.
Proof.
  induction t as [|e t IH]; simpl; [reflexivity|].
  destruct e; simpl; now rewrite IH.
Qed.

Lemma log_all_nil w : log_all [] w = w.
Proof. destruct w. unfold log_all. simpl. now rewrite app_nil_r. Qed.

Lemma log_all_app es es' w : log_all (es ++ es') w = log_all es' (log_all es w).
Proof. unfold log_all. simpl. now rewrite app_assoc. Qed.

Lemma send_answers r x w :
  server w (http_log (trace w)) r = Answers x ->
  send r w = (Ok x, log_all [EvHttp r] w).
Proof. intros H. unfold send. now rewrite H. Qed.

Lemma send_trace r w :
  trace (snd (send r w)) = trace w ++ [EvHttp r].
Proof. unfold send. now destruct (server w _ r). Qed.

Lemma raise_for_status_ok x w :
  http_error (status_code x) = false -> raise_for_status x w = (Ok tt, w).
Proof. intros H. unfold raise_for_status. now rewrite H. Qed.

Lemma raise_for_status_error x w :
  http_error (status_code x) = true ->
  raise_for_status x w = (Raise (HTTPError (status_code x)), w).
Proof. intros H. unfold raise_for_status. now rewrite H. Qed.

Lemma truthy_nonempty u : u <> "" -> truthy (Some u) = true.
Proof. destruct u; [congruence | reflexivity]. Qed.

(** *** Construction *)

Lemma arg_or_environ_resolve arg var w :
  fst (arg_or_environ arg var w) = Ok (resolve arg var (environ w)).
Proof. unfold arg_or_environ, resolve. now destruct (truthy arg). Qed.

(** The discovery of the job service does not look at the environment. *)
Lemma _get_job_service_url_environ version env w :
  _get_job_service_url version (set_environ env w) =
  (fst (_get_job_service_url version w),
   set_environ env (snd (_get_job_service_url version w))).
Proof.
  unfold _get_job_service_url, bind, send, resp_json, lift, ret, raise. simpl.
  destruct (server w (http_log (trace w)) _) as [x|]; [|reflexivity].
  destruct (json_body x) as [j|]; [|reflexivity].
  destruct (getitem j version); reflexivity.
Qed.

Lemma _get_job_service_url_env_reads version w :
  env_reads (trace (snd (_get_job_service_url version w))) = env_reads (trace w).
Proof.
  unfold _get_job_service_url, bind, send, resp_json, lift, ret, raise.
  destruct (server w (http_log (trace w)) _) as [x|]; simpl;
    [|now rewrite env_reads_app, app_nil_r].
  destruct (json_body x) as [j|]; simpl; [|now rewrite env_reads_app, app_nil_r].
  destruct (getitem j version); simpl; now rewrite env_reads_app, app_nil_r.
Qed.

Lemma __init___explicit u p version w :
  u <> "" -> p <> "" ->
  __init__ (Some u) (Some p) version w =
  (match fst (_get_job_service_url version w) with
   | Ok job_url => Ok (mk_api u p (u, p) job_url)
   | Raise e => Raise e
   end, snd (_get_job_service_url version w)).
Proof.
  intros Hu Hp. unfold __init__, arg_or_environ.
  rewrite (truthy_nonempty u Hu), (truthy_nonempty p Hp).
  unfold bind, ret. destruct (_get_job_service_url version w) as [[j|e] w']; reflexivity.
Qed.

(** C1.  With a non-empty user and a non-empty password given to the
    constructor, construction is the discovery of the job service followed by
    the storing of exactly the two arguments: it returns the client made of
    them and of the URL the discovery returns, or raises what the discovery
    raises.  It reads neither credential variable, and in two worlds whose
    environments differ in the two credential variables only it has the same
    outcome, the same client or the same exception, and the same trace. *)
Theorem explicit_credentials_ignore_environ (u p version : string)
    (env1 env2 : gmap string string) (w : world) :
  u <> "" -> p <> "" ->
  (forall name, name <> EAAS_USER_ENV_VAR -> name <> EAAS_PASS_ENV_VAR ->
                env1 !! name = env2 !! name) ->
  let run env := __init__ (Some u) (Some p) version (set_environ env w) in
  let discover env := _get_job_service_url version (set_environ env w) in
  run env1 =
    (match fst (discover env1) with
     | Ok job_url => Ok (mk_api u p (u, p) job_url)
     | Raise e => Raise e
     end, snd (discover env1)) /\
  credential_reads (trace (snd (run env1))) = credential_reads (trace w) /\
  fst (run env1) = fst (run env2) /\
  trace (snd (run env1)) = trace (snd (run env2)) /\
  (forall self, fst (run env1) = Ok self ->
     _user self = u /\ _password self = p /\ _auth self = (u, p)).
Proof.
  intros Hu Hp _ run discover. unfold run, discover.
  rewrite !(__init___explicit u p version _ Hu Hp). split; [reflexivity|].
  rewrite !_get_job_service_url_environ. simpl. repeat split.
  - unfold credential_reads. now rewrite _get_job_service_url_env_reads.
  - destruct (fst (_get_job_service_url version w)); inversion H; reflexivity.
  - destruct (fst (_get_job_service_url version w)); inversion H; reflexivity.
  - destruct (fst (_get_job_service_url version w)); inversion H; reflexivity.
Qed.

Lemma arg_or_environ_run arg var w :
  exists es, arg_or_environ arg var w = (Ok (resolve arg var (environ w)), log_all es w) /\
             http_log es = [].
Proof.
  unfold arg_or_environ, resolve. destruct (truthy arg).
  - exists []. now rewrite log_all_nil.
  - exists [EnvGet var]. split; reflexivity.
Qed.

(** C2.  When a credential resolves to nothing, which is when the argument
    is absent or empty and the variable is not set, construction raises the
    [ValueError] of the missing credential and sends no request. *)
Theorem missing_credential_raises (user password : option string) (version : string)
    (w : world) :
  resolve user EAAS_USER_ENV_VAR (environ w) = None \/
  resolve password EAAS_PASS_ENV_VAR (environ w) = None ->
  exists msg,
    fst (__init__ user password version w) = Raise (ValueError msg) /\
    (msg = "No username provided." \/ msg = "No password provided.") /\
    http_log (trace (snd (__init__ user password version w))) = http_log (trace w).
Proof.
  intros H. unfold __init__.
  destruct (arg_or_environ_run user EAAS_USER_ENV_VAR w) as (es1 & E1 & L1).
  destruct (arg_or_environ_run password EAAS_PASS_ENV_VAR (log_all es1 w))
    as (es2 & E2 & L2).
  rewrite (bind_ok _ _ _ _ _ E1), (bind_ok _ _ _ _ _ E2). simpl in *.
  assert (Hlog : http_log ((trace w ++ es1) ++ es2) = http_log (trace w))
    by now rewrite !http_log_app, L1, L2, !app_nil_r.
  destruct (resolve user EAAS_USER_ENV_VAR (environ w)) as [u'|].
  - destruct (resolve password EAAS_PASS_ENV_VAR (environ w)) as [p'|].
    + destruct H; discriminate.
    + exists "No password provided.". simpl. auto.
  - exists "No username provided.". simpl. auto.
Qed.

(** *** [update_job] *)

(** C7.  [update_job] sends one request, a PATCH to the URL of the job, and
    the form of that request holds the field [entry_job[name]], with the name
    as its value, if [job_name] is given and is empty if it is [None]. *)
Theorem update_job_name_field (self : EmotionAPI) (job_url : json)
    (job_name : option string) (w : world) :
  exists form,
    trace (snd (update_job self job_url job_name w)) =
      trace w ++ [EvHttp (patch_req self job_url form)] /\
    dict_get form "entry_job[name]" = JStr <$> job_name /\
    (is_Some (dict_get form "entry_job[name]") <-> job_name <> None) /\
    (job_name = None -> form = []).
Proof.
  exists (match job_name with Some n => [("entry_job[name]", JStr n)] | None => [] end).
  split; [|destruct job_name as [n|]; simpl].
  - unfold update_job, bind. fold (patch_req self job_url
      (match job_name with Some n => [("entry_job[name]", JStr n)] | None => [] end)).
    pose proof (send_trace (patch_req self job_url
      (match job_name with Some n => [("entry_job[name]", JStr n)] | None => [] end)) w) as T.
    destruct (send _ w) as [[x|e] w1]; simpl in T; [|exact T].
    unfold raise_for_status, resp_json, ret, raise.
    destruct (http_error (status_code x)); simpl; [exact T|].
    destruct (json_body x); exact T.
  - repeat split; try discriminate; eauto.
  - repeat split; try congruence. intros [x Hx]. discriminate.
Qed.

(** *** Downloads *)

(** C9.  [download_representation] opens the local file, which creates or
    truncates it, before it sends the GET of the media URL.  When
    [raise_for_status] rejects the answer, the error propagates, the handle
    is closed, nothing is written, and the file is left behind, empty. *)
Theorem download_representation_error_leaves_empty_file (self : EmotionAPI)
    (representation file_name media_url : json) (output_dir local_path : string)
    (x : response) (w : world) :
  getitem representation "file_name" = Ok file_name ->
  os_path_join output_dir file_name = Ok local_path ->
  writable w local_path = true ->
  getitem representation "media" = Ok media_url ->
  server w (http_log (trace w)) (get_media self media_url) = Answers x ->
  http_error (status_code x) = true ->
  let w' := snd (download_representation self representation output_dir w) in
  fst (download_representation self representation output_dir w) =
    Raise (HTTPError (status_code x)) /\
  trace w' = trace w ++ [EvOpen (next_fd w) local_path WB;
                         EvHttp (get_media self media_url);
                         EvClose (next_fd w)] /\
  fs w' = <[local_path := ""]> (fs w) /\
  fs w' !! local_path = Some "" /\
  (fs w !! local_path <> Some "" -> fs w' <> fs w).
Proof.
  intros Hname Hjoin Hw Hmedia Hsrv Herr.
  assert (E : download_representation self representation output_dir w =
    (Raise (HTTPError (status_code x)),
     close (next_fd w) (log_all [EvHttp (get_media self media_url)]
                          (alloc local_path WB w)))).
  { unfold download_representation, lift.
    rewrite Hname. rewrite (bind_ok _ _ w file_name w eq_refl).
    rewrite Hjoin. rewrite (bind_ok _ _ w local_path w eq_refl).
    apply bind_raise. unfold with_open, open_wb. rewrite Hw.
    rewrite Hmedia. rewrite (bind_ok _ _ _ media_url _ eq_refl).
    fold (get_media self media_url).
    assert (Hsend : send (get_media self media_url) (alloc local_path WB w) =
              (Ok x, log_all [EvHttp (get_media self media_url)] (alloc local_path WB w))).
    { apply send_answers. simpl. rewrite http_log_app. simpl. now rewrite app_nil_r. }
    rewrite (bind_ok _ _ _ _ _ Hsend).
    rewrite (bind_raise _ _ _ _ _ (raise_for_status_error x _ Herr)).
    reflexivity. }
  intros w'. subst w'. rewrite E. simpl.
  repeat split.
  - now rewrite <- !app_assoc.
  - apply lookup_insert_eq.
  - intros Hne Heq. apply Hne. rewrite <- Heq. apply lookup_insert_eq.
Qed.

(** X26.  Without an error the bytes of the answer end up in the file:
    [download_representation] returns the joined path and the file at that
    path holds exactly the content of the answer, whatever it held before. *)
Lemma download_representation_ok (self : EmotionAPI)
    (representation file_name media_url : json) (output_dir local_path : string)
    (x : response) (w : world) :
  getitem representation "file_name" = Ok file_name ->
  os_path_join output_dir file_name = Ok local_path ->
  writable w local_path = true ->
  getitem representation "media" = Ok media_url ->
  server w (http_log (trace w)) (get_media self media_url) = Answers x ->
  http_error (status_code x) = false ->
  fst (download_representation self representation output_dir w) = Ok local_path /\
  fs (snd (download_representation self representation output_dir w)) =
    <[local_path := content x]> (fs w).
Proof.
  intros Hname Hjoin Hw Hmedia Hsrv Herr.
  assert (Hsend : send (get_media self media_url) (alloc local_path WB w) =
            (Ok x, log_all [EvHttp (get_media self media_url)] (alloc local_path WB w))).
  { apply send_answers. simpl. rewrite http_log_app. simpl. now rewrite app_nil_r. }
  assert (E : download_representation self representation output_dir w =
    (Ok local_path,
     close (next_fd w)
       (snd (write (next_fd w) (content x)
               (log_all [EvHttp (get_media self media_url)] (alloc local_path WB w)))))).
  { unfold download_representation, lift.
    rewrite Hname. rewrite (bind_ok _ _ w file_name w eq_refl).
    rewrite Hjoin. rewrite (bind_ok _ _ w local_path w eq_refl).
    unfold bind at 1. unfold with_open, open_wb. rewrite Hw.
    rewrite Hmedia. rewrite (bind_ok _ _ _ media_url _ eq_refl).
    fold (get_media self media_url).
    rewrite (bind_ok _ _ _ _ _ Hsend).
    rewrite (bind_ok _ _ _ _ _ (raise_for_status_ok x _ Herr)).
    unfold write. simpl. rewrite lookup_insert_eq. reflexivity. }
  rewrite E. unfold write. simpl. rewrite lookup_insert_eq. simpl.
  rewrite lookup_insert_eq. simpl. rewrite insert_insert_eq. split; reflexivity.
Qed.

Lemma query_job_ok self job_url x job_json w :
  server w (http_log (trace w)) (get_json self job_url) = Answers x ->
  http_error (status_code x) = false ->
  json_body x = Some job_json ->
  query_job self job_url w = (Ok job_json, log_all [EvHttp (get_json self job_url)] w).
Proof.
  intros Hsrv Hok Hjson. unfold query_job. fold (get_json self job_url).
  rewrite (bind_ok _ _ _ _ _ (send_answers _ _ _ Hsrv)).
  rewrite (bind_ok _ _ _ _ _ (raise_for_status_ok x _ Hok)).
  unfold resp_json. now rewrite Hjson.
Qed.

Lemma download_first_none self content_type output_dir l cts w :
  fields "content_type" l = Some cts ->
  none_is content_type cts = true ->
  download_first self content_type output_dir l w = (Ok None, w).
Proof.
  revert cts. induction l as [|r l IH]; intros cts Hf Hn; simpl in *; [reflexivity|].
  destruct (getitem r "content_type") as [ct|] eqn:Hct; [|discriminate].
  destruct (fields "content_type" l) as [cts'|]; [|discriminate].
  injection Hf as <-. simpl in Hn. apply andb_prop in Hn as [Hne Hn].
  unfold lift. rewrite (bind_ok _ _ w ct w eq_refl).
  apply negb_true_iff in Hne. rewrite Hne. now apply (IH cts').
Qed.

Lemma download_first_some self content_type output_dir pre r post cts w :
  fields "content_type" pre = Some cts ->
  none_is content_type cts = true ->
  field_is "content_type" content_type r = true ->
  download_first self content_type output_dir (pre ++ r :: post) w =
  (p <- download_representation self r output_dir ;; ret (Some p)) w.
Proof.
  intros Hf Hn Hr. revert cts Hf Hn.
  induction pre as [|r' pre IH]; intros cts Hf Hn; simpl in *.
  - unfold field_is in Hr. destruct (getitem r "content_type") as [ct|]; [|discriminate].
    unfold lift. rewrite (bind_ok _ _ w ct w eq_refl). now rewrite Hr.
  - destruct (getitem r' "content_type") as [ct|] eqn:Hct; [|discriminate].
    destruct (fields "content_type" pre) as [cts'|]; [|discriminate].
    injection Hf as <-. simpl in Hn. apply andb_prop in Hn as [Hne Hn].
    unfold lift. rewrite (bind_ok _ _ w ct w eq_refl).
    apply negb_true_iff in Hne. rewrite Hne. now apply (IH cts').
Qed.

Lemma content_types_fields l cts w :
  fields "content_type" l = Some cts -> content_types l w = (Ok cts, w).
Proof.
  revert cts. induction l as [|r l IH]; intros cts Hf; simpl in *.
  - now injection Hf as <-.
  - destruct (getitem r "content_type") as [ct|] eqn:Hct; [|discriminate].
    destruct (fields "content_type" l) as [cts'|]; [|discriminate].
    injection Hf as <-. unfold lift. rewrite (bind_ok _ _ w ct w eq_refl).
    now rewrite (bind_ok _ _ _ _ _ (IH cts' eq_refl)).
Qed.

Lemma download_results_head self job_url content_type output_dir x job_json
    result_json reps w :
  server w (http_log (trace w)) (get_json self job_url) = Answers x ->
  http_error (status_code x) = false ->
  json_body x = Some job_json ->
  getitem job_json "result" = Ok result_json ->
  getitem result_json "representations" = Ok (JList reps) ->
  download_results self job_url content_type output_dir w =
  (found <- download_first self content_type output_dir reps ;;
   match found with
   | Some p => ret p
   | None =>
       all_content_types <- content_types reps ;;
       raise (ValueError (no_match_message content_type all_content_types))
   end) (log_all [EvHttp (get_json self job_url)] w).
Proof.
  intros Hsrv Hok Hjson Hres Hreps. unfold download_results.
  rewrite (bind_ok _ _ _ _ _ (query_job_ok self job_url x job_json w Hsrv Hok Hjson)).
  unfold lift. set (w1 := log_all _ w).
  rewrite Hres. rewrite (bind_ok _ _ w1 result_json w1 eq_refl).
  rewrite Hreps. rewrite (bind_ok _ _ w1 (JList reps) w1 eq_refl).
  simpl py_iter. now rewrite (bind_ok _ _ w1 reps w1 eq_refl).
Qed.

Lemma download_results_no_match self job_url content_type output_dir x job_json
    result_json reps cts w :
  server w (http_log (trace w)) (get_json self job_url) = Answers x ->
  http_error (status_code x) = false ->
  json_body x = Some job_json ->
  getitem job_json "result" = Ok result_json ->
  getitem result_json "representations" = Ok (JList reps) ->
  fields "content_type" reps = Some cts ->
  none_is content_type cts = true ->
  download_results self job_url content_type output_dir w =
  (Raise (ValueError (no_match_message content_type cts)),
   log_all [EvHttp (get_json self job_url)] w).
Proof.
  intros Hsrv Hok Hjson Hres Hreps Hf Hn.
  rewrite (download_results_head self job_url content_type output_dir x job_json
             result_json reps w) by assumption.
  rewrite (bind_ok _ _ _ _ _
             (download_first_none self content_type output_dir reps cts _ Hf Hn)).
  now rewrite (bind_ok _ _ _ _ _ (content_types_fields reps cts _ Hf)).
Qed.

(** C3.  Let the job that [query_job] returns hold the list [reps] at
    [result.representations].  If every entry has a content type and none
    equals the one asked for, [download_results] raises the [ValueError]
    whose message ends with the list of the content types of all the
    entries, each one printed by [repr], in the order of [reps]; it sends no
    other request than the query and touches no file.  If the entries of
    [pre] do not match and [r] does, [download_results] is the download of
    [r], the first match, whatever follows it. *)
Theorem download_results_enumerates_or_downloads_first (self : EmotionAPI)
    (job_url : json) (content_type output_dir : string) (x : response)
    (job_json result_json : json) (reps : list json) (w : world) :
  server w (http_log (trace w)) (get_json self job_url) = Answers x ->
  http_error (status_code x) = false ->
  json_body x = Some job_json ->
  getitem job_json "result" = Ok result_json ->
  getitem result_json "representations" = Ok (JList reps) ->
  let w1 := log_all [EvHttp (get_json self job_url)] w in
  (forall cts,
     fields "content_type" reps = Some cts ->
     none_is content_type cts = true ->
     download_results self job_url content_type output_dir w =
       (Raise (ValueError (no_match_message content_type cts)), w1) /\
     no_match_message content_type cts =
       "Could not match content_type '" +:+ content_type +:+ "'." +:+ LF +:+
       "Available content-types: [" +:+ join ", " (map repr cts) +:+ "]") /\
  (forall pre r post cts,
     reps = pre ++ r :: post ->
     fields "content_type" pre = Some cts ->
     none_is content_type cts = true ->
     field_is "content_type" content_type r = true ->
     download_results self job_url content_type output_dir w =
       download_representation self r output_dir w1).
Proof.
  intros Hsrv Hok Hjson Hres Hreps w1. split.
  - intros cts Hf Hn. split; [|reflexivity].
    now apply (download_results_no_match self job_url content_type output_dir x
                 job_json result_json reps cts w).
  - intros pre r post cts -> Hf Hn Hr.
    rewrite (download_results_head self job_url content_type output_dir x job_json
               result_json (pre ++ r :: post) w) by assumption.
    fold w1. unfold bind at 1.
    rewrite (download_first_some self content_type output_dir pre r post cts w1 Hf Hn Hr).
    unfold bind, ret.
    destruct (download_representation self r output_dir w1) as [[p|e] w2]; reflexivity.
Qed.

(** *** [results] *)

Lemma results_head self job_url x job_json result_json reps w :
  server w (http_log (trace w)) (get_json self job_url) = Answers x ->
  http_error (status_code x) = false ->
  json_body x = Some job_json ->
  getitem job_json "result" = Ok result_json ->
  getitem result_json "representations" = Ok (JList reps) ->
  results self job_url w =
  results_loop self (JList []) reps (log_all [EvHttp (get_json self job_url)] w).
Proof.
  intros Hsrv Hok Hjson Hres Hreps. unfold results.
  rewrite (bind_ok _ _ _ _ _ (query_job_ok self job_url x job_json w Hsrv Hok Hjson)).
  unfold lift. set (w1 := log_all _ w).
  rewrite Hres. rewrite (bind_ok _ _ w1 result_json w1 eq_refl).
  rewrite Hreps. rewrite (bind_ok _ _ w1 (JList reps) w1 eq_refl).
  simpl py_iter. now rewrite (bind_ok _ _ w1 reps w1 eq_refl).
Qed.

Lemma last_cons {A} (a d : A) (l : list A) : List.last (a :: l) d = List.last l a.
Proof.
  revert a d. induction l as [|b l IH]; intros a d; [reflexivity|].
  change (List.last (a :: b :: l) d) with (List.last (b :: l) d).
  now rewrite !IH.
Qed.

(** The loop of [results] sends the GET of every matching entry, in order,
    and keeps the body of the last answer. *)
Lemma results_loop_ok self l : forall cts urls resps js metrics w,
  fields "content_type" l = Some cts ->
  fields "media" (List.filter (fun r => field_is "content_type" SESSION_V0_JSON r) l) = Some urls ->
  served (server w) (http_log (trace w)) (map (get_media self) urls) resps ->
  forallb (fun x => negb (http_error (status_code x))) resps = true ->
  json_bodies resps = Some js ->
  results_loop self metrics l w =
  (Ok (List.last js metrics),
   log_all (map (fun u => EvHttp (get_media self u)) urls) w).
Proof.
  induction l as [|r l IH]; intros cts urls resps js metrics w Hct Hmedia Hsrv Hok Hjs.
  - simpl in *. injection Hmedia as <-. simpl in Hsrv.
    destruct resps; [|contradiction]. injection Hjs as <-.
    simpl. now rewrite log_all_nil.
  - simpl in Hct. destruct (getitem r "content_type") as [ct|] eqn:Er; [|discriminate].
    destruct (fields "content_type" l) as [cts'|] eqn:El; [|discriminate].
    cbn [results_loop]. unfold lift at 1. rewrite Er.
    rewrite (bind_ok _ _ w ct w eq_refl).
    cbn [List.filter] in Hmedia. unfold field_is at 1 in Hmedia. rewrite Er in Hmedia.
    destruct (eq_str ct SESSION_V0_JSON).
    + cbn [fields] in Hmedia.
      destruct (getitem r "media") as [u|] eqn:Eu; [|discriminate].
      destruct (fields "media" _) as [urls'|] eqn:Eurls; [|discriminate].
      injection Hmedia as <-. cbn [map served] in Hsrv.
      destruct resps as [|x resps]; [contradiction|]. destruct Hsrv as [Hx Hsrv].
      cbn [forallb] in Hok. apply andb_prop in Hok as [Hokx Hok].
      apply negb_true_iff in Hokx.
      cbn [json_bodies] in Hjs. destruct (json_body x) as [j|] eqn:Ej; [|discriminate].
      destruct (json_bodies resps) as [js'|] eqn:Ejs; [|discriminate].
      injection Hjs as <-.
      unfold lift. rewrite (bind_ok _ _ w u w eq_refl).
      fold (get_media self u).
      rewrite (bind_ok _ _ _ _ _ (send_answers _ _ _ Hx)).
      rewrite (bind_ok _ _ _ _ _ (raise_for_status_ok x _ Hokx)).
      unfold resp_json. rewrite Ej. unfold ret at 1.
      rewrite (bind_ok _ _ _ j _ eq_refl).
      rewrite (IH cts' urls' resps js' j _ eq_refl eq_refl); try assumption; try reflexivity.
      * rewrite last_cons. f_equal.
        change (map (fun u0 => EvHttp (get_media self u0)) (u :: urls'))
          with ([EvHttp (get_media self u)] ++ map (fun u0 => EvHttp (get_media self u0)) urls').
        now rewrite log_all_app.
      * simpl. rewrite http_log_app. exact Hsrv.
    + now apply (IH cts' urls resps js metrics w eq_refl).
Qed.

(** C4.  Let the job that [query_job] returns hold the list [reps] at
    [result.representations], every entry with a content type and none with
    the session content type.  Then [results] returns the empty list, having
    sent the query only, while [download_results], asked for that content
    type, raises. *)
Theorem results_empty_without_session_representation (self : EmotionAPI)
    (job_url : json) (output_dir : string) (x : response)
    (job_json result_json : json) (reps cts : list json) (w : world) :
  server w (http_log (trace w)) (get_json self job_url) = Answers x ->
  http_error (status_code x) = false ->
  json_body x = Some job_json ->
  getitem job_json "result" = Ok result_json ->
  getitem result_json "representations" = Ok (JList reps) ->
  fields "content_type" reps = Some cts ->
  none_is SESSION_V0_JSON cts = true ->
  results self job_url w = (Ok (JList []), log_all [EvHttp (get_json self job_url)] w) /\
  exists msg,
    download_results self job_url SESSION_V0_JSON output_dir w =
      (Raise (ValueError msg), log_all [EvHttp (get_json self job_url)] w).
Proof.
  intros Hsrv Hok Hjson Hres Hreps Hct Hnone. split.
  - rewrite (results_head self job_url x job_json result_json reps w) by assumption.
    assert (Hfilter : List.filter (fun r => field_is "content_type" SESSION_V0_JSON r) reps = []).
    { clear Hreps. revert cts Hct Hnone.
      induction reps as [|r reps IH]; intros cts Hct Hnone; [reflexivity|].
      simpl in Hct. destruct (getitem r "content_type") as [ct|] eqn:Er; [|discriminate].
      destruct (fields "content_type" reps) as [cts'|]; [|discriminate].
      injection Hct as <-. simpl in Hnone. apply andb_prop in Hnone as [Hne Hnone].
      apply negb_true_iff in Hne.
      cbn [List.filter]. unfold field_is at 1. rewrite Er, Hne. now apply (IH cts'). }
    rewrite (results_loop_ok self reps cts [] [] [] (JList []) _ Hct); try reflexivity.
    + now rewrite log_all_nil.
    + now rewrite Hfilter.
  - exists (no_match_message SESSION_V0_JSON cts).
    now apply (download_results_no_match self job_url SESSION_V0_JSON output_dir x
                 job_json result_json reps cts w).
Qed.

(** C10.  Let the job that [query_job] returns hold the list [reps] at
    [result.representations], every entry with a content type, and let the
    entries with the session content type have the media URLs [urls].  If the
    service answers the GETs of these URLs, sent in this order, without an
    error status and with JSON bodies [js], then [results] has sent exactly
    these GETs after the query, each one authenticated, and returns the last
    body of [js]; the bodies before it are dropped. *)
Theorem results_gets_every_match_returns_last (self : EmotionAPI)
    (job_url : json) (x : response) (job_json result_json : json)
    (reps cts urls js : list json) (resps : list response) (w : world) :
  server w (http_log (trace w)) (get_json self job_url) = Answers x ->
  http_error (status_code x) = false ->
  json_body x = Some job_json ->
  getitem job_json "result" = Ok result_json ->
  getitem result_json "representations" = Ok (JList reps) ->
  fields "content_type" reps = Some cts ->
  fields "media" (List.filter (fun r => field_is "content_type" SESSION_V0_JSON r) reps)
    = Some urls ->
  served (server w) (http_log (trace w) ++ [get_json self job_url])
         (map (get_media self) urls) resps ->
  forallb (fun x => negb (http_error (status_code x))) resps = true ->
  json_bodies resps = Some js ->
  results self job_url w =
    (Ok (List.last js (JList [])),
     log_all (EvHttp (get_json self job_url) ::
              map (fun u => EvHttp (get_media self u)) urls) w) /\
  Forall (fun r => auth r = Some (_auth self)) (map (get_media self) urls).
Proof.
  intros Hsrv Hok Hjson Hres Hreps Hct Hmedia Hserved Hoks Hjs. split.
  - rewrite (results_head self job_url x job_json result_json reps w) by assumption.
    rewrite (results_loop_ok self reps cts urls resps js (JList []) _ Hct Hmedia);
      try assumption.
    + f_equal.
      change (EvHttp (get_json self job_url) :: map (fun u => EvHttp (get_media self u)) urls)
        with ([EvHttp (get_json self job_url)] ++ map (fun u => EvHttp (get_media self u)) urls).
      now rewrite log_all_app.
    + simpl. rewrite http_log_app. exact Hserved.
  - clear. induction urls as [|u urls IH]; simpl; constructor; [reflexivity | exact IH].
Qed.

(** *** Annotations *)

Lemma add_annotation_run self entry u s k v w :
  getitem entry "annotations" = Ok u ->
  add_annotation self entry s k v w =
  (match failure (server w (http_log (trace w)) (post_annotation self u s k v)) with
   | Some e => Raise e
   | None =>
       match server w (http_log (trace w)) (post_annotation self u s k v) with
       | Answers x => Ok (default JNull (json_body x))
       | Fails => Raise RequestException
       end
   end, log_all [EvHttp (post_annotation self u s k v)] w).
Proof.
  intros Hu. unfold add_annotation, lift. rewrite Hu.
  rewrite (bind_ok _ _ w u w eq_refl). fold (post_annotation self u s k v).
  unfold bind, send, failure, raise_for_status, resp_json, ret, raise.
  destruct (server w (http_log (trace w)) (post_annotation self u s k v)) as [x|];
    [|reflexivity].
  destruct (http_error (status_code x)); [reflexivity|].
  destruct (json_body x); reflexivity.
Qed.

Lemma add_annotations_step self entry u a rest r w :
  getitem entry "annotations" = Ok u ->
  annotation_post self u a = Some r ->
  add_annotations self entry (a :: rest) w =
  match failure (server w (http_log (trace w)) r) with
  | Some e => (Raise e, log_all [EvHttp r] w)
  | None => add_annotations self entry rest (log_all [EvHttp r] w)
  end.
Proof.
  intros Hu Ha. unfold annotation_post in Ha. cbn [add_annotations]. unfold lift.
  destruct (getitem a "source") as [s|]; [|discriminate].
  destruct (getitem a "key") as [k|]; [|discriminate].
  destruct (getitem a "value") as [v|]; [|discriminate].
  injection Ha as <-.
  rewrite (bind_ok _ _ w s w eq_refl), (bind_ok _ _ w k w eq_refl),
    (bind_ok _ _ w v w eq_refl).
  unfold bind at 1. rewrite (add_annotation_run self entry u s k v w Hu).
  destruct (failure _) as [e|] eqn:Ef; [reflexivity|].
  destruct (server w _ _); [reflexivity | discriminate].
Qed.

Lemma add_annotations_accepted self entry u l : forall reqs w,
  getitem entry "annotations" = Ok u ->
  annotation_posts self u l = Some reqs ->
  all_accepted (server w) (http_log (trace w)) reqs = true ->
  add_annotations self entry l w = (Ok tt, log_all (map EvHttp reqs) w).
Proof.
  induction l as [|a l IH]; intros reqs w Hu Hp Hacc.
  - injection Hp as <-. simpl. now rewrite log_all_nil.
  - cbn [annotation_posts] in Hp.
    destruct (annotation_post self u a) as [r|] eqn:Ea; [|discriminate].
    destruct (annotation_posts self u l) as [rs|] eqn:El; [|discriminate].
    injection Hp as <-. cbn [all_accepted] in Hacc.
    rewrite (add_annotations_step self entry u a l r w Hu Ea).
    destruct (failure _); [discriminate|].
    rewrite (IH rs _ Hu eq_refl).
    + change (map EvHttp (r :: rs)) with ([EvHttp r] ++ map EvHttp rs).
      now rewrite log_all_app.
    + simpl. rewrite http_log_app. exact Hacc.
Qed.

Lemma add_annotations_first_failure self entry u pre : forall a post reqs r e w,
  getitem entry "annotations" = Ok u ->
  annotation_posts self u pre = Some reqs ->
  all_accepted (server w) (http_log (trace w)) reqs = true ->
  annotation_post self u a = Some r ->
  failure (server w (http_log (trace w) ++ reqs) r) = Some e ->
  add_annotations self entry (pre ++ a :: post) w =
    (Raise e, log_all (map EvHttp (reqs ++ [r])) w).
Proof.
  induction pre as [|a' pre IH]; intros a post reqs r e w Hu Hp Hacc Ha Hfail.
  - injection Hp as <-. rewrite app_nil_r in Hfail. cbn [app map].
    rewrite (add_annotations_step self entry u a post r w Hu Ha). now rewrite Hfail.
  - cbn [annotation_posts] in Hp.
    destruct (annotation_post self u a') as [r'|] eqn:Ea'; [|discriminate].
    destruct (annotation_posts self u pre) as [rs|] eqn:El; [|discriminate].
    injection Hp as <-. cbn [all_accepted] in Hacc.
    change ((a' :: pre) ++ a :: post) with (a' :: (pre ++ a :: post)).
    rewrite (add_annotations_step self entry u a' _ r' w Hu Ea').
    destruct (failure _); [discriminate|].
    rewrite (IH a post rs r e _ Hu eq_refl); try assumption.
    + change (map EvHttp ((r' :: rs) ++ [r]))
        with ([EvHttp r'] ++ map EvHttp (rs ++ [r])).
      now rewrite log_all_app.
    + simpl. rewrite http_log_app. exact Hacc.
    + simpl. rewrite http_log_app. simpl. rewrite <- app_assoc. exact Hfail.
Qed.

Lemma annotation_posts_are_posts self u l : forall reqs,
  annotation_posts self u l = Some reqs -> Forall (fun r => method r = POST) reqs.
Proof.
  induction l as [|a l IH]; intros reqs Hp.
  - injection Hp as <-. constructor.
  - cbn [annotation_posts] in Hp. unfold annotation_post in Hp.
    destruct (getitem a "source"); [|discriminate].
    destruct (getitem a "key"); [|discriminate].
    destruct (getitem a "value"); [|discriminate].
    destruct (annotation_posts self u l) as [rs|]; [|discriminate].
    injection Hp as <-. constructor; [reflexivity | now apply IH].
Qed.

(** C5.  Let the entry hold the URL [u] of its annotations.  On items that
    all have their three keys and whose POSTs the service accepts,
    [add_annotations] sends one POST per item, in the order of the items.  On
    a sequence [pre ++ a :: post] where the POSTs of [pre] are accepted and
    the POST of [a] fails with [e], it raises [e] and has sent the POSTs of
    [pre] and one POST for [a], nothing else: no request for an item of
    [post] and no request that takes back an addition.  The input of three
    items whose second POST fails is the case [pre = [a1]], [post = [a3]]. *)
Theorem add_annotations_sequential_stops_at_first_failure (self : EmotionAPI)
    (entry u : json) (w : world) :
  getitem entry "annotations" = Ok u ->
  (forall l reqs,
     annotation_posts self u l = Some reqs ->
     all_accepted (server w) (http_log (trace w)) reqs = true ->
     add_annotations self entry l w = (Ok tt, log_all (map EvHttp reqs) w)) /\
  (forall pre a post reqs r e,
     annotation_posts self u pre = Some reqs ->
     all_accepted (server w) (http_log (trace w)) reqs = true ->
     annotation_post self u a = Some r ->
     failure (server w (http_log (trace w) ++ reqs) r) = Some e ->
     add_annotations self entry (pre ++ a :: post) w =
       (Raise e, log_all (map EvHttp (reqs ++ [r])) w) /\
     length (reqs ++ [r]) = S (length pre) /\
     Forall (fun q => method q = POST) (reqs ++ [r])).
Proof.
  intros Hu. split.
  - intros l reqs Hp Hacc. now apply (add_annotations_accepted self entry u l).
  - intros pre a post reqs r e Hp Hacc Ha Hfail. split; [|split].
    + now apply (add_annotations_first_failure self entry u pre).
    + rewrite length_app. simpl. rewrite Nat.add_1_r. f_equal.
      clear Hacc Hfail. revert reqs Hp.
      induction pre as [|a' pre IH]; intros reqs Hp.
      * now injection Hp as <-.
      * cbn [annotation_posts] in Hp.
        destruct (annotation_post self u a'); [|discriminate].
        destruct (annotation_posts self u pre) as [rs|]; [|discriminate].
        injection Hp as <-. simpl. f_equal. now apply IH.
    + apply Forall_app. split.
      * now apply (annotation_posts_are_posts self u pre).
      * constructor; [|constructor]. unfold annotation_post in Ha.
        destruct (getitem a "source"); [|discriminate].
        destruct (getitem a "key"); [|discriminate].
        destruct (getitem a "value"); [|discriminate].
        now injection Ha as <-.
Qed.

Lemma delete_matching_ok self source key l : forall srcs keys urls resps w,
  fields "source" l = Some srcs ->
  fields "key" (List.filter (field_is "source" source) l) = Some keys ->
  fields "self" (List.filter (is_annotation source key) l) = Some urls ->
  served (server w) (http_log (trace w)) (map (delete_req self) urls) resps ->
  forallb (fun x => negb (http_error (status_code x))) resps = true ->
  delete_matching self source key l w =
    (Ok tt, log_all (map (fun u => EvHttp (delete_req self u)) urls) w).
Proof.
  induction l as [|a l IH]; intros srcs keys urls resps w Hs Hk Hu Hsrv Hok.
  - simpl in *. injection Hu as <-. simpl. now rewrite log_all_nil.
  - cbn [fields] in Hs. destruct (getitem a "source") as [s|] eqn:Es; [|discriminate].
    destruct (fields "source" l) as [srcs'|] eqn:El; [|discriminate].
    cbn [delete_matching]. unfold lift at 1. rewrite Es.
    rewrite (bind_ok _ _ w s w eq_refl).
    cbn [List.filter] in Hk, Hu. unfold is_annotation at 1 in Hu.
    unfold field_is at 1 in Hk. unfold field_is at 1 in Hu. rewrite Es in Hk, Hu.
    destruct (eq_str s source).
    + cbn [fields] in Hk. destruct (getitem a "key") as [k|] eqn:Ek; [|discriminate].
      destruct (fields "key" _) as [keys'|] eqn:Ekeys; [|discriminate].
      cbv iota. rewrite bind_assoc. unfold lift at 1.
      rewrite (bind_ok _ _ w k w eq_refl).
      unfold ret at 1. rewrite (bind_ok _ _ w (eq_str k key) w eq_refl).
      cbn [andb] in Hu. unfold field_is at 1 in Hu. rewrite Ek in Hu.
      destruct (eq_str k key).
      * cbn [fields] in Hu. destruct (getitem a "self") as [su|] eqn:Eself; [|discriminate].
        destruct (fields "self" _) as [urls'|] eqn:Eurls; [|discriminate].
        injection Hu as <-. cbn [map served] in Hsrv.
        destruct resps as [|x resps]; [contradiction|]. destruct Hsrv as [Hx Hsrv].
        cbn [forallb] in Hok. apply andb_prop in Hok as [Hokx Hok].
        apply negb_true_iff in Hokx.
        cbv iota. rewrite bind_assoc. unfold lift.
        rewrite (bind_ok _ _ w su w eq_refl). fold (delete_req self su).
        rewrite bind_assoc.
        rewrite (bind_ok _ _ _ _ _ (send_answers _ _ _ Hx)).
        rewrite (bind_ok _ _ _ tt _ (raise_for_status_ok x _ Hokx)).
        rewrite (IH srcs' keys' urls' resps _ eq_refl eq_refl eq_refl); try assumption.
        -- change (map (fun u0 => EvHttp (delete_req self u0)) (su :: urls'))
             with ([EvHttp (delete_req self su)] ++
                   map (fun u0 => EvHttp (delete_req self u0)) urls').
           now rewrite log_all_app.
        -- simpl. rewrite http_log_app. exact Hsrv.
      * cbv iota. unfold ret at 1. rewrite (bind_ok _ _ w tt w eq_refl).
        now apply (IH srcs' keys' urls resps w eq_refl eq_refl).
    + cbv iota. unfold ret at 1. rewrite (bind_ok _ _ w false w eq_refl).
      cbv iota. unfold ret at 1. rewrite (bind_ok _ _ w tt w eq_refl).
      now apply (IH srcs' keys urls resps w eq_refl).
Qed.

(** C6.  Let the entry hold the URL [u] of its annotations and let the
    service list the annotations [anns], each with a source, those of the
    given source with a key, and those that match the source and the key
    with the URLs [urls] at [self].  If the service answers the DELETEs of
    these URLs without an error status, [delete_annotation] has sent, after
    the listing, exactly one authenticated DELETE per matching annotation,
    in the order of the listing, and returns.  With no matching annotation
    [urls] is empty: it sends the listing only and returns. *)
Theorem delete_annotation_deletes_every_match (self : EmotionAPI) (entry u : json)
    (source key : string) (x : response) (anns srcs keys urls : list json)
    (resps : list response) (w : world) :
  getitem entry "annotations" = Ok u ->
  server w (http_log (trace w)) (get_json self u) = Answers x ->
  http_error (status_code x) = false ->
  json_body x = Some (JList anns) ->
  fields "source" anns = Some srcs ->
  fields "key" (List.filter (field_is "source" source) anns) = Some keys ->
  fields "self" (List.filter (is_annotation source key) anns) = Some urls ->
  served (server w) (http_log (trace w) ++ [get_json self u])
         (map (delete_req self) urls) resps ->
  forallb (fun x => negb (http_error (status_code x))) resps = true ->
  delete_annotation self entry source key w =
    (Ok tt, log_all (EvHttp (get_json self u) ::
                     map (fun s => EvHttp (delete_req self s)) urls) w) /\
  length urls = length (List.filter (is_annotation source key) anns) /\
  Forall (fun r => method r = DELETE /\ auth r = Some (_auth self))
         (map (delete_req self) urls).
Proof.
  intros Hu Hx Hokx Hjson Hs Hk Hself Hsrv Hok.
  assert (E : delete_annotation self entry source key w =
    (Ok tt, log_all (EvHttp (get_json self u) ::
                     map (fun s => EvHttp (delete_req self s)) urls) w)).
  { unfold delete_annotation, lift. rewrite Hu. rewrite (bind_ok _ _ w u w eq_refl).
    rewrite (bind_ok _ _ _ _ _ (query_job_ok self u x (JList anns) w Hx Hokx Hjson)).
    simpl py_iter. set (w1 := log_all _ w). rewrite (bind_ok _ _ w1 anns w1 eq_refl).
    rewrite (delete_matching_ok self source key anns srcs keys urls resps w1 Hs Hk Hself);
      try assumption.
    - change (EvHttp (get_json self u) :: map (fun s => EvHttp (delete_req self s)) urls)
        with ([EvHttp (get_json self u)] ++ map (fun s => EvHttp (delete_req self s)) urls).
      now rewrite log_all_app.
    - subst w1. simpl. rewrite http_log_app. exact Hsrv. }
  split; [exact E|]. split.
  - clear -Hself. revert urls Hself.
    induction (List.filter (is_annotation source key) anns) as [|a l IH]; intros urls Hself.
    + now injection Hself as <-.
    + cbn [fields] in Hself. destruct (getitem a "self"); [|discriminate].
      destruct (fields "self" l) as [urls'|]; [|discriminate].
      injection Hself as <-. simpl. f_equal. now apply IH.
  - clear. induction urls as [|s urls IH]; simpl; constructor; [split; reflexivity | exact IH].
Qed.

(** *** File handles of the uploads *)

Lemma closed_in_app fd t t' : closed_in fd (t ++ t') = closed_in fd t || closed_in fd t'.
Proof. apply existsb_app. Qed.

(** X23.  [create_job] closes the handle it opens, whatever the request
    does: the table of open handles is the one before the call, and when the
    file was there the trace holds the close. *)
Lemma create_job_releases_handle self media_path job_name extra_params w :
  handles w !! next_fd w = None ->
  handles (snd (create_job self media_path job_name extra_params w)) = handles w /\
  (is_Some (fs w !! media_path) ->
   closed_in (next_fd w)
     (trace (snd (create_job self media_path job_name extra_params w))) = true).
Proof.
  intros Hfresh. unfold create_job, with_open, open_rb.
  destruct (fs w !! media_path) as [c|]; [|split; [reflexivity | intros [? ?]; discriminate]].
  unfold bind, read, send, raise_for_status, resp_json, ret, raise.
  cbn [fst snd].
  match goal with |- context [server ?a ?b ?c] => destruct (server a b c) as [x|] end.
  - destruct (http_error (status_code x)); [|destruct (json_body x)];
      cbn [snd close handles trace log alloc];
      (split; [rewrite delete_insert_eq; now apply delete_id
              | intros _; rewrite closed_in_app; simpl; rewrite Nat.eqb_refl;
                now rewrite orb_true_r]).
  - cbn [snd close handles trace log alloc].
    split; [rewrite delete_insert_eq; now apply delete_id
           | intros _; rewrite closed_in_app; simpl; rewrite Nat.eqb_refl;
             now rewrite orb_true_r].
Qed.

Ltac still_open :=
  cbv zeta; cbn [snd fst handles trace alloc log];
  split; [apply lookup_insert_eq
         | rewrite ?closed_in_app; simpl; now rewrite ?orb_false_r].

(** X24.  [add_representation] never closes the handle it opens: when the
    method is left, by a return or by an exception, the handle is still in
    the table of open handles and the trace holds no close of it. *)
Lemma add_representation_leaves_handle_open self entry media_path mimetype w :
  is_Some (fs w !! media_path) ->
  let w' := snd (add_representation self entry media_path mimetype w) in
  handles w' !! next_fd w = Some media_path /\
  closed_in (next_fd w) (trace w') = closed_in (next_fd w) (trace w).
Proof.
  intros [c Hc]. cbv zeta.
  unfold add_representation, open_rb, bind, lift, read, send, raise_for_status,
    resp_json, ret, raise.
  rewrite Hc.
  destruct (getitem entry "representation_self") as [u|]; [|still_open].
  match goal with |- context [server ?a ?b ?c] => destruct (server a b c) as [x|] end;
    [|still_open].
  destruct (http_error (status_code x)); [|destruct (json_body x)]; still_open.
Qed.

(** X25.  [update_representation] never closes the handle it opens: when
    the method is left, by a return or by an exception, the handle is still
    in the table of open handles and the trace holds no close of it. *)
Lemma update_representation_leaves_handle_open self rep media_path mimetype w :
  is_Some (fs w !! media_path) ->
  let w' := snd (update_representation self rep media_path mimetype w) in
  handles w' !! next_fd w = Some media_path /\
  closed_in (next_fd w) (trace w') = closed_in (next_fd w) (trace w).
Proof.
  intros [c Hc]. cbv zeta.
  unfold update_representation, open_rb, bind, lift, read, send, raise_for_status,
    resp_json, ret, raise.
  rewrite Hc.
  destruct (getitem rep "self") as [u|]; [|still_open].
  match goal with |- context [server ?a ?b ?c] => destruct (server a b c) as [x|] end;
    [|still_open].
  destruct (http_error (status_code x)); still_open.
Qed.

(** *** More on construction *)

Lemma arg_or_environ_world arg var w :
  arg_or_environ arg var w =
  (Ok (resolve arg var (environ w)),
   log_all (if truthy arg then [] else [EnvGet var]) w).
Proof.
  unfold arg_or_environ, resolve. destruct (truthy arg).
  - unfold ret. now rewrite log_all_nil.
  - reflexivity.
Qed.

Lemma _get_job_service_url_trace version w :
  trace (snd (_get_job_service_url version w)) = trace w ++ [EvHttp index_request].
Proof.
  unfold _get_job_service_url, bind, resp_json, lift, ret, raise.
  fold index_request. pose proof (send_trace index_request w) as T.
  destruct (send index_request w) as [[x|e] w1]; simpl in T; [|exact T].
  destruct (json_body x) as [j|]; [|exact T].
  destruct (getitem j version) as [v|]; [|exact T].
  destruct (getitem v JOB_SERVICE_KEY); exact T.
Qed.

(** The whole run of [__init__], by cases on the resolved credentials. *)
Lemma __init___run user password version w :
  let w2 := log_all (map EnvGet (variables_read user password)) w in
  __init__ user password version w =
  match resolve user EAAS_USER_ENV_VAR (environ w),
        resolve password EAAS_PASS_ENV_VAR (environ w) with
  | None, _ => (Raise (ValueError "No username provided."), w2)
  | Some _, None => (Raise (ValueError "No password provided."), w2)
  | Some u', Some p' =>
      (match fst (_get_job_service_url version w2) with
       | Ok job_url => Ok (mk_api u' p' (u', p') job_url)
       | Raise e => Raise e
       end, snd (_get_job_service_url version w2))
  end.
Proof.
  intros w2. unfold __init__.
  rewrite (bind_ok _ _ _ _ _ (arg_or_environ_world user EAAS_USER_ENV_VAR w)).
  rewrite (bind_ok _ _ _ _ _ (arg_or_environ_world password EAAS_PASS_ENV_VAR _)).
  assert (Hw : log_all (if truthy password then [] else [EnvGet EAAS_PASS_ENV_VAR])
                 (log_all (if truthy user then [] else [EnvGet EAAS_USER_ENV_VAR]) w) = w2).
  { subst w2. rewrite <- log_all_app. unfold variables_read. rewrite map_app.
    now destruct (truthy user), (truthy password). }
  cbn [environ log_all]. rewrite Hw.
  destruct (resolve user EAAS_USER_ENV_VAR (environ w)) as [u'|]; [|reflexivity].
  destruct (resolve password EAAS_PASS_ENV_VAR (environ w)) as [p'|]; [|reflexivity].
  unfold bind, ret.
  destruct (_get_job_service_url version w2) as [[j|e] w3]; reflexivity.
Qed.

(** X1.  The user is checked first: when the user resolves to nothing,
    construction raises [ValueError "No username provided."], whatever the
    password is, and sends no request.  When the user resolves and the
    password does not, it raises [ValueError "No password provided."]. *)
Theorem __init___checks_user_first (user password : option string) (version : string)
    (w : world) :
  resolve user EAAS_USER_ENV_VAR (environ w) = None \/
  resolve password EAAS_PASS_ENV_VAR (environ w) = None ->
  fst (__init__ user password version w) =
    Raise (ValueError
             (match resolve user EAAS_USER_ENV_VAR (environ w) with
              | None => "No username provided."
              | Some _ => "No password provided."
              end)) /\
  http_log (trace (snd (__init__ user password version w))) = http_log (trace w).
Proof.
  intros H. rewrite (__init___run user password version w).
  assert (Hlog : http_log (trace (log_all (map EnvGet (variables_read user password)) w))
                 = http_log (trace w)).
  { simpl. rewrite http_log_app. unfold variables_read.
    destruct (truthy user), (truthy password); simpl; now rewrite app_nil_r. }
  destruct (resolve user EAAS_USER_ENV_VAR (environ w)) as [u'|].
  - destruct (resolve password EAAS_PASS_ENV_VAR (environ w)) as [p'|].
    + destruct H; discriminate.
    + split; [reflexivity | exact Hlog].
  - split; [reflexivity | exact Hlog].
Qed.

(** The reads of the environment by the code of the constructor. *)
Lemma __init___env_gets (user password : option string) (version : string) (w : world) :
  env_reads (trace (snd (__init__ user password version w))) =
  env_reads (trace w) ++ variables_read user password.
Proof.
  rewrite (__init___run user password version w).
  assert (Hreads : forall l, env_reads (map EnvGet l) = l).
  { induction l as [|v l IH]; simpl; [reflexivity | now rewrite IH]. }
  assert (H2 : env_reads (trace (log_all (map EnvGet (variables_read user password)) w))
               = env_reads (trace w) ++ variables_read user password).
  { simpl. now rewrite env_reads_app, Hreads. }
  destruct (resolve user EAAS_USER_ENV_VAR (environ w)) as [u'|]; [|exact H2].
  destruct (resolve password EAAS_PASS_ENV_VAR (environ w)) as [p'|]; [|exact H2].
  cbn [snd]. now rewrite _get_job_service_url_env_reads.
Qed.

(** X2.  Whatever the outcome, of the two credential variables construction
    reads the user variable exactly when the user argument is absent or
    empty, and then the password variable exactly when the password argument
    is absent or empty. *)
Theorem __init___credential_variable_reads (user password : option string)
    (version : string) (w : world) :
  credential_reads (trace (snd (__init__ user password version w))) =
  credential_reads (trace w) ++ variables_read user password.
Proof.
  unfold credential_reads. rewrite __init___env_gets, List.filter_app. f_equal.
  unfold variables_read. destruct (truthy user), (truthy password); reflexivity.
Qed.

(** X3.  A client that construction returns stores the credentials as they
    resolve, each from the argument if it is given and not empty and from its
    variable otherwise, and its [_auth] is the pair of the two. *)
Theorem __init___stores_resolved_credentials (user password : option string)
    (version : string) (w : world) (self : EmotionAPI) :
  fst (__init__ user password version w) = Ok self ->
  resolve user EAAS_USER_ENV_VAR (environ w) = Some (_user self) /\
  resolve password EAAS_PASS_ENV_VAR (environ w) = Some (_password self) /\
  _auth self = (_user self, _password self).
Proof.
  rewrite (__init___run user password version w).
  destruct (resolve user EAAS_USER_ENV_VAR (environ w)) as [u'|]; [|discriminate].
  destruct (resolve password EAAS_PASS_ENV_VAR (environ w)) as [p'|]; [|discriminate].
  cbn [fst]. destruct (fst (_get_job_service_url version _)); [|discriminate].
  intros [= <-]. repeat split.
Qed.

(** X4.  The discovery sends one GET to the index service, without
    credentials, and does not look at the status of the answer: whenever the
    body is a JSON document that holds [version] and, under it, [jobs], that
    value is the job service URL. *)
Theorem _get_job_service_url_ignores_status (version : string) (x : response)
    (j v job_url : json) (w : world) :
  server w (http_log (trace w)) index_request = Answers x ->
  json_body x = Some j ->
  getitem j version = Ok v ->
  getitem v JOB_SERVICE_KEY = Ok job_url ->
  _get_job_service_url version w = (Ok job_url, log_all [EvHttp index_request] w) /\
  auth index_request = None.
Proof.
  intros Hx Hj Hv Hurl. split; [|reflexivity].
  unfold _get_job_service_url. fold index_request.
  rewrite (bind_ok _ _ _ _ _ (send_answers _ _ _ Hx)).
  unfold resp_json. rewrite Hj. unfold ret at 1.
  set (w1 := log_all _ w). rewrite (bind_ok _ _ w1 j w1 eq_refl).
  unfold lift. rewrite Hv. rewrite (bind_ok _ _ w1 v w1 eq_refl). now rewrite Hurl.
Qed.

(** X5.  Construction hands the credentials to no call of [requests]: it
    makes at most one call, the GET of the index service, and that call has
    no argument [auth]. *)
Theorem __init___passes_no_auth (user password : option string)
    (version : string) (w : world) :
  exists reqs,
    http_log (trace (snd (__init__ user password version w))) =
      http_log (trace w) ++ reqs /\
    (reqs = [] \/ reqs = [index_request]) /\
    Forall (fun r => auth r = None) reqs.
Proof.
  rewrite (__init___run user password version w).
  assert (Hlog : http_log (trace (log_all (map EnvGet (variables_read user password)) w))
                 = http_log (trace w)).
  { simpl. rewrite http_log_app. unfold variables_read.
    destruct (truthy user), (truthy password); simpl; now rewrite app_nil_r. }
  destruct (resolve user EAAS_USER_ENV_VAR (environ w)) as [u'|];
    [|exists []; rewrite app_nil_r; repeat split; [exact Hlog | now left | constructor]].
  destruct (resolve password EAAS_PASS_ENV_VAR (environ w)) as [p'|];
    [|exists []; rewrite app_nil_r; repeat split; [exact Hlog | now left | constructor]].
  exists [index_request]. cbn [snd]. rewrite _get_job_service_url_trace.
  rewrite http_log_app, Hlog. repeat split; [now right | repeat constructor].
Qed.

(** X6.  With credentials that resolve, an index document that is a dict
    without the requested version makes construction raise [KeyError] of the
    version, and one that has the version without [jobs] under it makes it
    raise [KeyError "jobs"]. *)
Theorem __init___unknown_version (user password : option string) (version u' p' : string)
    (x : response) (d : list (string * json)) (w : world) :
  resolve user EAAS_USER_ENV_VAR (environ w) = Some u' ->
  resolve password EAAS_PASS_ENV_VAR (environ w) = Some p' ->
  server w (http_log (trace w)) index_request = Answers x ->
  json_body x = Some (JDict d) ->
  fst (__init__ user password version w) =
    match dict_get d version with
    | None => Raise (KeyError version)
    | Some (JDict d') =>
        match dict_get d' JOB_SERVICE_KEY with
        | None => Raise (KeyError JOB_SERVICE_KEY)
        | Some job_url => Ok (mk_api u' p' (u', p') job_url)
        end
    | Some _ => Raise TypeError
    end.
Proof.
  intros Hu Hp Hx Hj. rewrite (__init___run user password version w), Hu, Hp. cbn [fst].
  set (w2 := log_all _ w).
  assert (Hx2 : server w2 (http_log (trace w2)) index_request = Answers x).
  { subst w2. simpl. rewrite http_log_app. unfold variables_read.
    destruct (truthy user), (truthy password); simpl; now rewrite app_nil_r. }
  unfold _get_job_service_url. fold index_request.
  rewrite (bind_ok _ _ _ _ _ (send_answers _ _ _ Hx2)).
  unfold resp_json. rewrite Hj. unfold ret at 1.
  set (w3 := log_all _ w2). rewrite (bind_ok _ _ w3 (JDict d) w3 eq_refl).
  unfold lift, bind, getitem.
  destruct (dict_get d version) as [v|]; [|reflexivity].
  destruct v; try reflexivity.
  destruct (dict_get d0 JOB_SERVICE_KEY); reflexivity.
Qed.

(** X27.  The two errors of a missing credential are raised in no other
    case: when construction raises [ValueError "No username provided."] the
    user resolves to nothing, and when it raises
    [ValueError "No password provided."] the user resolves and the password
    resolves to nothing. *)
Theorem __init___missing_credential_errors_only_when_missing
    (user password : option string) (version : string) (w : world) :
  (fst (__init__ user password version w) = Raise (ValueError "No username provided.") ->
   resolve user EAAS_USER_ENV_VAR (environ w) = None) /\
  (fst (__init__ user password version w) = Raise (ValueError "No password provided.") ->
   is_Some (resolve user EAAS_USER_ENV_VAR (environ w)) /\
   resolve password EAAS_PASS_ENV_VAR (environ w) = None).
Proof.
  rewrite (__init___run user password version w).
  destruct (resolve user EAAS_USER_ENV_VAR (environ w)) as [u'|];
    [|split; [reflexivity | intros [=]]].
  destruct (resolve password EAAS_PASS_ENV_VAR (environ w)) as [p'|];
    [|split; [intros [=] | intros _; split; [eexists; reflexivity | reflexivity]]].
  cbn [fst].
  assert (H : forall msg,
    match fst (_get_job_service_url version
                 (log_all (map EnvGet (variables_read user password)) w)) with
    | Ok job_url => Ok (mk_api u' p' (u', p') job_url)
    | Raise e => Raise e
    end <> Raise (ValueError msg)).
  { intros msg.
    unfold _get_job_service_url, bind, send, resp_json, lift, ret, raise.
    destruct (server _ _ _) as [x|]; simpl; [|discriminate].
    destruct (json_body x) as [j|]; simpl; [|discriminate].
    unfold getitem.
    destruct j; simpl; try discriminate.
    destruct (dict_get d version) as [v|]; simpl; [|discriminate].
    destruct v; simpl; try discriminate.
    destruct (dict_get d0 JOB_SERVICE_KEY); simpl; discriminate. }
  split; intros E; destruct (H _ E).
Qed.

(** *** The credentials on the requests *)

Lemma authenticates_quiet {A} self (m : M A) :
  (forall w, http_log (trace (snd (m w))) = http_log (trace w)) ->
  authenticates self m.
Proof. intros H w. exists []. rewrite app_nil_r. split; [apply H | constructor]. Qed.

Lemma authenticates_ret {A} self (a : A) : authenticates self (ret a).
Proof. now apply authenticates_quiet. Qed.

Lemma authenticates_raise {A} self e : authenticates self (@raise A e).
Proof. now apply authenticates_quiet. Qed.

Lemma authenticates_lift {A} self (r : result A) : authenticates self (lift r).
Proof. now apply authenticates_quiet. Qed.

Lemma authenticates_read self fd : authenticates self (read fd).
Proof. now apply authenticates_quiet. Qed.

Lemma http_log_snoc t e :
  match e with EvHttp _ => False | _ => True end -> http_log (t ++ [e]) = http_log t.
Proof. intros He. rewrite http_log_app. destruct e; simpl; try apply app_nil_r; contradiction. Qed.

Lemma authenticates_write self fd bytes : authenticates self (write fd bytes).
Proof.
  apply authenticates_quiet. intros w. unfold write.
  destruct (handles w !! fd); [|reflexivity]. simpl. now apply http_log_snoc.
Qed.

Lemma open_rb_quiet path w : http_log (trace (snd (open_rb path w))) = http_log (trace w).
Proof.
  unfold open_rb. destruct (fs w !! path); [|reflexivity]. simpl. now apply http_log_snoc.
Qed.

Lemma open_wb_quiet path w : http_log (trace (snd (open_wb path w))) = http_log (trace w).
Proof.
  unfold open_wb. destruct (writable w path); [|reflexivity]. simpl. now apply http_log_snoc.
Qed.

Lemma authenticates_bind {A B} self (m : M A) (k : A -> M B) :
  authenticates self m -> (forall a, authenticates self (k a)) ->
  authenticates self (bind m k).
Proof.
  intros Hm Hk w. destruct (Hm w) as (r1 & E1 & F1). unfold bind.
  destruct (m w) as [[a|e] w1]; simpl in E1.
  - destruct (Hk a w1) as (r2 & E2 & F2).
    exists (r1 ++ r2). rewrite E2, E1, app_assoc. split; [reflexivity|].
    apply Forall_app. now split.
  - exists r1. now split.
Qed.

Lemma authenticates_with_open {A} self (acquire : M nat) (body : nat -> M A) :
  (forall w, http_log (trace (snd (acquire w))) = http_log (trace w)) ->
  (forall fd, authenticates self (body fd)) ->
  authenticates self (with_open acquire body).
Proof.
  intros Ha Hb w. unfold with_open. specialize (Ha w).
  destruct (acquire w) as [[fd|e] w1]; simpl in Ha.
  - destruct (Hb fd w1) as (reqs & E & F). exists reqs.
    destruct (body fd w1) as [r w2]. simpl in *.
    rewrite http_log_snoc by exact I. rewrite E, Ha. now split.
  - exists []. rewrite app_nil_r. split; [exact Ha | constructor].
Qed.

Lemma authenticates_send self r :
  auth r = Some (_auth self) -> authenticates self (send r).
Proof.
  intros Hr w. exists [r]. split; [|now repeat constructor].
  rewrite send_trace. now rewrite http_log_app.
Qed.

Lemma authenticates_raise_for_status self x : authenticates self (raise_for_status x).
Proof.
  unfold raise_for_status. destruct (http_error (status_code x));
    [apply authenticates_raise | apply authenticates_ret].
Qed.

Lemma authenticates_resp_json self x : authenticates self (resp_json x).
Proof.
  unfold resp_json.
  destruct (json_body x); [apply authenticates_ret | apply authenticates_raise].
Qed.

Ltac authenticates :=
  repeat first
    [ apply authenticates_ret | apply authenticates_raise | apply authenticates_lift
    | apply authenticates_read | apply authenticates_write
    | apply authenticates_raise_for_status | apply authenticates_resp_json
    | apply authenticates_send; reflexivity
    | apply authenticates_with_open; [apply open_rb_quiet || apply open_wb_quiet | intros ?]
    | apply authenticates_bind; [|intros ?] ].

Lemma authenticates_query_job self job_url : authenticates self (query_job self job_url).
Proof. unfold query_job. authenticates. Qed.

Lemma authenticates_add_annotation self entry s k v :
  authenticates self (add_annotation self entry s k v).
Proof. unfold add_annotation. authenticates. Qed.

Lemma authenticates_download_representation self representation output_dir :
  authenticates self (download_representation self representation output_dir).
Proof. unfold download_representation. authenticates. Qed.

Lemma authenticates_download_first self content_type output_dir l :
  authenticates self (download_first self content_type output_dir l).
Proof.
  induction l as [|r l IH]; cbn [download_first]; [apply authenticates_ret|].
  apply authenticates_bind; [apply authenticates_lift | intros ct].
  destruct (eq_str ct content_type); [|exact IH].
  apply authenticates_bind;
    [apply authenticates_download_representation | intros q; apply authenticates_ret].
Qed.

Lemma authenticates_content_types self l : authenticates self (content_types l).
Proof.
  induction l as [|r l IH]; cbn [content_types]; [apply authenticates_ret|].
  apply authenticates_bind; [apply authenticates_lift | intros ct].
  apply authenticates_bind; [exact IH | intros cts; apply authenticates_ret].
Qed.

Lemma authenticates_results_loop self l : forall metrics,
  authenticates self (results_loop self metrics l).
Proof.
  induction l as [|r l IH]; intros metrics; cbn [results_loop]; [apply authenticates_ret|].
  apply authenticates_bind; [apply authenticates_lift | intros ct].
  destruct (eq_str ct SESSION_V0_JSON); [|apply IH].
  apply authenticates_bind; [apply authenticates_lift | intros u].
  apply authenticates_bind; [apply authenticates_send; reflexivity | intros x].
  apply authenticates_bind; [apply authenticates_raise_for_status | intros _].
  apply authenticates_bind; [apply authenticates_resp_json | intros j; apply IH].
Qed.

Lemma authenticates_delete_matching self source key l :
  authenticates self (delete_matching self source key l).
Proof.
  induction l as [|a l IH]; cbn [delete_matching]; [apply authenticates_ret|].
  apply authenticates_bind; [apply authenticates_lift | intros s].
  apply authenticates_bind; [|intros matches].
  - destruct (eq_str s source); [|apply authenticates_ret].
    apply authenticates_bind; [apply authenticates_lift | intros k; apply authenticates_ret].
  - apply authenticates_bind; [|intros _; exact IH].
    destruct matches; [|apply authenticates_ret].
    apply authenticates_bind; [apply authenticates_lift | intros u].
    apply authenticates_bind;
      [apply authenticates_send; reflexivity | intros x; apply authenticates_raise_for_status].
Qed.

(** X7.  After construction every call of [requests] is made with the
    credentials of the client: whatever the arguments, the files and the
    answers of the service, each request that [create_job], [query_job],
    [update_job], [download_representation], [download_results], [results],
    [jobs], [add_annotation], [add_annotations], [delete_annotation],
    [add_representation] and [update_representation] send has the pair
    [_auth] of the client for its argument [auth]. *)
Theorem every_request_is_authenticated (self : EmotionAPI) :
  (forall media_path job_name extra_params,
     authenticates self (create_job self media_path job_name extra_params)) /\
  (forall job_url, authenticates self (query_job self job_url)) /\
  (forall job_url job_name, authenticates self (update_job self job_url job_name)) /\
  (forall representation output_dir,
     authenticates self (download_representation self representation output_dir)) /\
  (forall job_url content_type output_dir,
     authenticates self (download_results self job_url content_type output_dir)) /\
  (forall job_url, authenticates self (results self job_url)) /\
  authenticates self (jobs self) /\
  (forall entry s k v, authenticates self (add_annotation self entry s k v)) /\
  (forall entry annotations, authenticates self (add_annotations self entry annotations)) /\
  (forall entry source key, authenticates self (delete_annotation self entry source key)) /\
  (forall entry media_path mimetype,
     authenticates self (add_representation self entry media_path mimetype)) /\
  (forall representation media_path mimetype,
     authenticates self (update_representation self representation media_path mimetype)).
Proof.
  repeat split.
  - intros media_path job_name extra_params. unfold create_job.
    apply authenticates_with_open; [apply open_rb_quiet | intros video].
    apply authenticates_bind; [apply authenticates_read | intros body].
    apply authenticates_bind; [apply authenticates_send; reflexivity | intros x].
    apply authenticates_bind;
      [apply authenticates_raise_for_status | intros _; apply authenticates_resp_json].
  - intros job_url. apply authenticates_query_job.
  - intros job_url job_name. unfold update_job.
    apply authenticates_bind; [apply authenticates_send; reflexivity | intros x].
    apply authenticates_bind;
      [apply authenticates_raise_for_status | intros _; apply authenticates_resp_json].
  - intros representation output_dir. apply authenticates_download_representation.
  - intros job_url content_type output_dir. unfold download_results.
    apply authenticates_bind; [apply authenticates_query_job | intros j].
    apply authenticates_bind; [apply authenticates_lift | intros r].
    apply authenticates_bind; [apply authenticates_lift | intros reps].
    apply authenticates_bind; [apply authenticates_lift | intros l].
    apply authenticates_bind; [apply authenticates_download_first | intros found].
    destruct found; [apply authenticates_ret|].
    apply authenticates_bind;
      [apply authenticates_content_types | intros cts; apply authenticates_raise].
  - intros job_url. unfold results.
    apply authenticates_bind; [apply authenticates_query_job | intros j].
    apply authenticates_bind; [apply authenticates_lift | intros r].
    apply authenticates_bind; [apply authenticates_lift | intros reps].
    apply authenticates_bind; [apply authenticates_lift | intros l].
    apply authenticates_results_loop.
  - unfold jobs.
    apply authenticates_bind; [apply authenticates_send; reflexivity | intros x].
    apply authenticates_bind;
      [apply authenticates_raise_for_status | intros _; apply authenticates_resp_json].
  - intros entry s k v. apply authenticates_add_annotation.
  - intros entry annotations.
    induction annotations as [|a l IH]; cbn [add_annotations]; [apply authenticates_ret|].
    apply authenticates_bind; [apply authenticates_lift | intros s].
    apply authenticates_bind; [apply authenticates_lift | intros k].
    apply authenticates_bind; [apply authenticates_lift | intros v].
    apply authenticates_bind; [apply authenticates_add_annotation | intros _; exact IH].
  - intros entry source key. unfold delete_annotation.
    apply authenticates_bind; [apply authenticates_lift | intros u].
    apply authenticates_bind; [apply authenticates_query_job | intros anns].
    apply authenticates_bind; [apply authenticates_lift | intros l].
    apply authenticates_delete_matching.
  - intros entry media_path mimetype. unfold add_representation.
    apply authenticates_bind;
      [apply authenticates_quiet; intros w; apply open_rb_quiet | intros f].
    apply authenticates_bind; [apply authenticates_lift | intros u].
    apply authenticates_bind; [apply authenticates_read | intros body].
    apply authenticates_bind; [apply authenticates_send; reflexivity | intros x].
    apply authenticates_bind;
      [apply authenticates_raise_for_status | intros _; apply authenticates_resp_json].
  - intros representation media_path mimetype. unfold update_representation.
    apply authenticates_bind;
      [apply authenticates_quiet; intros w; apply open_rb_quiet | intros f].
    apply authenticates_bind; [apply authenticates_lift | intros u].
    apply authenticates_bind; [apply authenticates_read | intros body].
    apply authenticates_bind;
      [apply authenticates_send; reflexivity | intros x; apply authenticates_raise_for_status].
Qed.

(** *** Error statuses *)

Lemma checked_json_error r x w :
  server w (http_log (trace w)) r = Answers x ->
  http_error (status_code x) = true ->
  (resp <- send r ;; raise_for_status resp ;;; resp_json resp) w =
  (Raise (HTTPError (status_code x)), log_all [EvHttp r] w).
Proof.
  intros Hx Herr.
  rewrite (bind_ok _ _ _ _ _ (send_answers _ _ _ Hx)).
  now rewrite (bind_raise _ _ _ _ _ (raise_for_status_error x _ Herr)).
Qed.

(** X8.  [query_job], [update_job], [jobs] and [add_annotation] look at the
    status before they look at the body: when the answer to their request
    has a status that [raise_for_status] rejects, they raise [HTTPError] with
    that status, whether the body is JSON or not, having sent that one
    request. *)
Theorem json_methods_check_status_first (self : EmotionAPI) (x : response) (w : world) :
  http_error (status_code x) = true ->
  (forall job_url,
     server w (http_log (trace w)) (get_json self job_url) = Answers x ->
     query_job self job_url w =
       (Raise (HTTPError (status_code x)), log_all [EvHttp (get_json self job_url)] w)) /\
  (forall job_url job_name,
     server w (http_log (trace w)) (patch_req self job_url (name_form job_name))
       = Answers x ->
     update_job self job_url job_name w =
       (Raise (HTTPError (status_code x)),
        log_all [EvHttp (patch_req self job_url (name_form job_name))] w)) /\
  (server w (http_log (trace w)) (get_json self (_job_url self)) = Answers x ->
   jobs self w =
     (Raise (HTTPError (status_code x)),
      log_all [EvHttp (get_json self (_job_url self))] w)) /\
  (forall entry u s k v,
     getitem entry "annotations" = Ok u ->
     server w (http_log (trace w)) (post_annotation self u s k v) = Answers x ->
     add_annotation self entry s k v w =
       (Raise (HTTPError (status_code x)),
        log_all [EvHttp (post_annotation self u s k v)] w)).
Proof.
  intros Herr. repeat split.
  - intros job_url Hx. now apply checked_json_error.
  - intros job_url job_name Hx. unfold update_job. fold (name_form job_name).
    now apply (checked_json_error (patch_req self job_url (name_form job_name))).
  - intros Hx. now apply checked_json_error.
  - intros entry u s k v Hu Hx. unfold add_annotation, lift. rewrite Hu.
    rewrite (bind_ok _ _ w u w eq_refl).
    now apply (checked_json_error (post_annotation self u s k v)).
Qed.

(** *** Uploads *)

Lemma checked_json_run r w :
  (resp <- send r ;; raise_for_status resp ;;; resp_json resp) w =
  (reply (server w (http_log (trace w)) r), log_all [EvHttp r] w).
Proof.
  unfold bind, send, reply, raise_for_status, resp_json, ret, raise.
  destruct (server w (http_log (trace w)) r) as [x|]; [|reflexivity].
  destruct (http_error (status_code x)); [reflexivity|].
  destruct (json_body x); reflexivity.
Qed.

Lemma read_all_alloc path c w :
  fs w !! path = Some c -> read_all (next_fd w) (alloc path RB w) = c.
Proof.
  intros Hc. unfold read_all. cbn [handles fs alloc].
  rewrite lookup_insert_eq. now rewrite Hc.
Qed.

Lemma http_log_alloc path mode w :
  http_log (trace (alloc path mode w)) = http_log (trace w).
Proof. simpl. rewrite http_log_app. simpl. now rewrite app_nil_r. Qed.

(** X9.  [create_job] on a path that holds no file raises the error of
    [open] and leaves the world as it is: no request is sent. *)
Theorem create_job_missing_file (self : EmotionAPI) (media_path job_name : string)
    (extra_params : list (string * json)) (w : world) :
  fs w !! media_path = None ->
  create_job self media_path job_name extra_params w = (Raise (OSError media_path), w).
Proof. intros Hc. unfold create_job, with_open, open_rb. now rewrite Hc. Qed.

(** X10.  [create_job] on a file of content [c] opens the file, sends one
    POST to the job service, with the credentials, the extra parameters as
    form fields, the job name as the part [entry_job[name]] and the content
    [c] under the last component of the path as the part [entry_job[input]],
    and closes the file.  It returns the parsed body, or raises what the
    request, the status or the body gives; the file system is unchanged. *)
Theorem create_job_run (self : EmotionAPI) (media_path job_name c : string)
    (extra_params : list (string * json)) (w : world) :
  fs w !! media_path = Some c ->
  let r := job_upload self media_path job_name extra_params c in
  let w' := snd (create_job self media_path job_name extra_params w) in
  fst (create_job self media_path job_name extra_params w) =
    reply (server w (http_log (trace w)) r) /\
  trace w' = trace w ++ [EvOpen (next_fd w) media_path RB; EvHttp r; EvClose (next_fd w)] /\
  fs w' = fs w.
Proof.
  intros Hc r w'.
  assert (E : create_job self media_path job_name extra_params w =
    (reply (server w (http_log (trace w)) r),
     close (next_fd w) (log_all [EvHttp r] (alloc media_path RB w)))).
  { unfold create_job, with_open, open_rb. rewrite Hc.
    assert (Hread : read (next_fd w) (alloc media_path RB w) = (Ok c, alloc media_path RB w)).
    { unfold read. now rewrite (read_all_alloc media_path c w Hc). }
    rewrite (bind_ok _ _ _ _ _ Hread).
    fold (job_upload self media_path job_name extra_params c). fold r.
    rewrite checked_json_run. rewrite http_log_alloc. reflexivity. }
  subst w'. rewrite E. simpl. repeat split. now rewrite <- !app_assoc.
Qed.

Lemma append_cons a s t : String a s +:+ t = String a (s +:+ t).
Proof. reflexivity. Qed.

Lemma contains_app c s t : contains c (s +:+ t) = contains c s || contains c t.
Proof.
  induction s as [|a s IH]; [reflexivity|].
  rewrite append_cons. cbn [contains]. now rewrite IH, orb_assoc.
Qed.

Lemma append_nil_r s : s +:+ "" = s.
Proof. induction s as [|a s IH]; [reflexivity | now rewrite append_cons, IH]. Qed.

Lemma append_assoc s t u : (s +:+ t) +:+ u = s +:+ t +:+ u.
Proof. induction s as [|a s IH]; [reflexivity | now rewrite !append_cons, IH]. Qed.

Lemma ends_with_slash_app s t :
  t <> "" -> ends_with_slash (s +:+ t) = ends_with_slash t.
Proof.
  intros Ht. induction s as [|a s IH]; [reflexivity|].
  rewrite append_cons.
  destruct (s +:+ t) as [|b u] eqn:E.
  - destruct s; [change (t = "") in E; congruence | discriminate].
  - exact IH.
Qed.

Lemma basename_from_spec p : forall acc,
  contains slash acc = false ->
  contains slash (basename_from acc p) = false /\
  exists dir, acc +:+ p = dir +:+ basename_from acc p /\
              (dir = "" \/ ends_with_slash dir = true).
Proof.
  induction p as [|a p IH]; intros acc Hacc; cbn [basename_from].
  - split; [exact Hacc|]. exists "". split; [apply append_nil_r | now left].
  - destruct (Ascii.eqb a slash) eqn:Ea.
    + apply Ascii.eqb_eq in Ea. subst a.
      destruct (IH "" eq_refl) as (Hn & dir & Hd & Hdir). split; [exact Hn|].
      exists (acc +:+ String slash dir). split.
      * rewrite append_assoc. change ("" +:+ p) with p in Hd.
        rewrite append_cons. now rewrite <- Hd.
      * right. rewrite ends_with_slash_app by discriminate.
        destruct Hdir as [-> | Hdir]; [reflexivity|].
        destruct dir; [discriminate | exact Hdir].
    + destruct (IH (acc +:+ String a "")) as (Hn & dir & Hd & Hdir).
      * rewrite contains_app, Hacc. cbn [contains orb].
        rewrite Ascii.eqb_sym, Ea. reflexivity.
      * split; [exact Hn|]. exists dir. split; [|exact Hdir].
        rewrite <- Hd, append_assoc. reflexivity.
Qed.

Lemma create_job_requests self media_path job_name c extra_params w :
  fs w !! media_path = Some c ->
  http_log (trace (snd (create_job self media_path job_name extra_params w))) =
  http_log (trace w) ++ [job_upload self media_path job_name extra_params c].
Proof.
  intros Hc. unfold create_job, with_open, open_rb. rewrite Hc.
  assert (Hread : read (next_fd w) (alloc media_path RB w) = (Ok c, alloc media_path RB w)).
  { unfold read. now rewrite (read_all_alloc media_path c w Hc). }
  rewrite (bind_ok _ _ _ _ _ Hread).
  fold (job_upload self media_path job_name extra_params c).
  rewrite checked_json_run. cbn [snd trace close log_all alloc].
  rewrite !http_log_app. cbn [http_log]. now rewrite !app_nil_r.
Qed.

(** X11.  The one request [create_job] sends for a file of content [c]
    carries two parts, the job name and the content [c], and the name under
    which the content is uploaded is the last component of [media_path]: it
    holds no separator, and the path is that name after nothing or after a
    prefix that ends with a separator. *)
Theorem create_job_uploads_last_component (self : EmotionAPI)
    (media_path job_name c : string) (extra_params : list (string * json)) (w : world) :
  fs w !! media_path = Some c ->
  exists r name dir,
    http_log (trace (snd (create_job self media_path job_name extra_params w))) =
      http_log (trace w) ++ [r] /\
    files r = [("entry_job[name]", mk_part None job_name None);
               ("entry_job[input]", mk_part (Some name) c None)] /\
    contains slash name = false /\
    media_path = dir +:+ name /\
    (dir = "" \/ ends_with_slash dir = true).
Proof.
  intros Hc.
  destruct (basename_from_spec media_path "" eq_refl) as (Hn & dir & Hd & Hdir).
  exists (job_upload self media_path job_name extra_params c),
         (os_path_basename media_path), dir.
  split; [now apply create_job_requests|]. repeat split; assumption.
Qed.

(** X12.  [add_representation] looks for the URL after it has opened the
    file.  With an entry that does not give the URL, a missing file is what
    is reported, and the world is unchanged; with a file, the error of the
    lookup is raised and the file stays open.  No request is sent. *)
Theorem add_representation_opens_before_lookup (self : EmotionAPI) (entry : json)
    (media_path mimetype : string) (e : exn) (w : world) :
  getitem entry "representation_self" = Raise e ->
  add_representation self entry media_path mimetype w =
    match fs w !! media_path with
    | None => (Raise (OSError media_path), w)
    | Some _ => (Raise e, alloc media_path RB w)
    end.
Proof.
  intros He. unfold add_representation, open_rb, bind at 1.
  destruct (fs w !! media_path); [|reflexivity].
  unfold lift. now rewrite He.
Qed.

(** X13.  [add_representation] on a file of content [c] and an entry with
    the URL [u] at [representation_self] sends one POST to [u], with the
    credentials and one part [media] that carries the path as it was given
    for a name, the content [c] and the media type.  It returns the parsed
    body, or raises what the request, the status or the body gives. *)
Theorem add_representation_run (self : EmotionAPI) (entry u : json)
    (media_path mimetype c : string) (w : world) :
  fs w !! media_path = Some c ->
  getitem entry "representation_self" = Ok u ->
  let r := media_upload self POST u media_path mimetype c in
  add_representation self entry media_path mimetype w =
    (reply (server w (http_log (trace w)) r),
     log_all [EvHttp r] (alloc media_path RB w)).
Proof.
  intros Hc Hu r. unfold add_representation, open_rb, bind at 1. rewrite Hc.
  unfold lift. rewrite Hu. set (w1 := alloc media_path RB w).
  rewrite (bind_ok _ _ w1 u w1 eq_refl).
  assert (Hread : read (next_fd w) w1 = (Ok c, w1)).
  { unfold read, w1. now rewrite (read_all_alloc media_path c w Hc). }
  rewrite (bind_ok _ _ _ _ _ Hread).
  fold (media_upload self POST u media_path mimetype c). fold r.
  rewrite checked_json_run. subst w1. now rewrite http_log_alloc.
Qed.

(** X14.  [update_representation] on a file of content [c] and a
    representation with the URL [u] at [self] sends one PUT to [u] with the
    same part.  It checks the status and never parses the body: an answer
    that [raise_for_status] accepts makes it return, JSON or not. *)
Theorem update_representation_run (self : EmotionAPI) (representation u : json)
    (media_path mimetype c : string) (w : world) :
  fs w !! media_path = Some c ->
  getitem representation "self" = Ok u ->
  let r := media_upload self PUT u media_path mimetype c in
  update_representation self representation media_path mimetype w =
    (acknowledged (server w (http_log (trace w)) r),
     log_all [EvHttp r] (alloc media_path RB w)).
Proof.
  intros Hc Hu r. unfold update_representation, open_rb, bind at 1. rewrite Hc.
  unfold lift. rewrite Hu. set (w1 := alloc media_path RB w).
  rewrite (bind_ok _ _ w1 u w1 eq_refl).
  assert (Hread : read (next_fd w) w1 = (Ok c, w1)).
  { unfold read, w1. now rewrite (read_all_alloc media_path c w Hc). }
  rewrite (bind_ok _ _ _ _ _ Hread).
  fold (media_upload self PUT u media_path mimetype c). fold r.
  unfold bind, send, acknowledged, raise_for_status, ret, raise.
  subst w1. rewrite http_log_alloc. cbn [server alloc].
  destruct (server w (http_log (trace w)) r) as [x|]; [|reflexivity].
  destruct (http_error (status_code x)); reflexivity.
Qed.

(** *** More on downloads *)

(** X15.  [download_representation] opens the local file before anything
    goes over the network: when the file cannot be opened for writing, the
    error of [open] is raised, no request is sent and the world is
    unchanged. *)
Theorem download_representation_unwritable (self : EmotionAPI)
    (representation file_name : json) (output_dir local_path : string) (w : world) :
  getitem representation "file_name" = Ok file_name ->
  os_path_join output_dir file_name = Ok local_path ->
  writable w local_path = false ->
  download_representation self representation output_dir w =
    (Raise (OSError local_path), w).
Proof.
  intros Hname Hjoin Hw. unfold download_representation, lift.
  rewrite Hname. rewrite (bind_ok _ _ w file_name w eq_refl).
  rewrite Hjoin. rewrite (bind_ok _ _ w local_path w eq_refl).
  apply bind_raise. unfold with_open, open_wb. now rewrite Hw.
Qed.

(** X16.  The media URL is looked up inside the [with] block.  A
    representation with a file name and without [media] makes
    [download_representation] raise [KeyError "media"]; no request is sent,
    and the local file has been created, or truncated, and closed. *)
Theorem download_representation_without_media (self : EmotionAPI)
    (representation file_name : json) (output_dir local_path : string) (e : exn)
    (w : world) :
  getitem representation "file_name" = Ok file_name ->
  os_path_join output_dir file_name = Ok local_path ->
  writable w local_path = true ->
  getitem representation "media" = Raise e ->
  let w' := snd (download_representation self representation output_dir w) in
  fst (download_representation self representation output_dir w) = Raise e /\
  trace w' = trace w ++ [EvOpen (next_fd w) local_path WB; EvClose (next_fd w)] /\
  fs w' = <[local_path := ""]> (fs w).
Proof.
  intros Hname Hjoin Hw Hmedia.
  assert (E : download_representation self representation output_dir w =
    (Raise e, close (next_fd w) (alloc local_path WB w))).
  { unfold download_representation, lift.
    rewrite Hname. rewrite (bind_ok _ _ w file_name w eq_refl).
    rewrite Hjoin. rewrite (bind_ok _ _ w local_path w eq_refl).
    apply bind_raise. unfold with_open, open_wb. rewrite Hw.
    rewrite Hmedia. now rewrite (bind_raise _ _ _ e _ eq_refl). }
  intros w'. subst w'. rewrite E. simpl. repeat split. now rewrite <- app_assoc.
Qed.


Lemma download_representation_world (self : EmotionAPI)
    (representation file_name media_url : json) (output_dir local_path : string)
    (x : response) (w : world) :
  getitem representation "file_name" = Ok file_name ->
  os_path_join output_dir file_name = Ok local_path ->
  writable w local_path = true ->
  getitem representation "media" = Ok media_url ->
  server w (http_log (trace w)) (get_media self media_url) = Answers x ->
  http_error (status_code x) = false ->
  download_representation self representation output_dir w =
    (Ok local_path,
     mk_world (environ w) (<[local_path := content x]> (fs w)) (writable w)
       (delete (next_fd w) (<[next_fd w := local_path]> (handles w)))
       (S (next_fd w)) (server w)
       (trace w ++ [EvOpen (next_fd w) local_path WB; EvHttp (get_media self media_url);
                    EvWrite (next_fd w) (content x); EvClose (next_fd w)])).
Proof.
  intros Hname Hjoin Hw Hmedia Hsrv Herr.
  assert (Hsend : send (get_media self media_url) (alloc local_path WB w) =
            (Ok x, log_all [EvHttp (get_media self media_url)] (alloc local_path WB w))).
  { apply send_answers. now rewrite http_log_alloc. }
  unfold download_representation, lift.
  rewrite Hname. rewrite (bind_ok _ _ w file_name w eq_refl).
  rewrite Hjoin. rewrite (bind_ok _ _ w local_path w eq_refl).
  unfold bind at 1. unfold with_open, open_wb. rewrite Hw.
  rewrite Hmedia. rewrite (bind_ok _ _ _ media_url _ eq_refl).
  fold (get_media self media_url).
  rewrite (bind_ok _ _ _ _ _ Hsend).
  rewrite (bind_ok _ _ _ _ _ (raise_for_status_ok x _ Herr)).
  unfold write. simpl. rewrite lookup_insert_eq. simpl.
  rewrite lookup_insert_eq. simpl. rewrite insert_insert_eq.
  unfold ret, close. simpl. now rewrite <- !app_assoc.
Qed.

(** X17.  The file name comes from the service.  When it is absolute,
    [download_representation] writes the bytes of the answer at that path,
    whatever [output_dir] is, and returns that path. *)
Theorem download_representation_absolute_file_name (self : EmotionAPI)
    (representation media_url : json) (output_dir rest : string)
    (x : response) (w : world) :
  getitem representation "file_name" = Ok (JStr (String slash rest)) ->
  writable w (String slash rest) = true ->
  getitem representation "media" = Ok media_url ->
  server w (http_log (trace w)) (get_media self media_url) = Answers x ->
  http_error (status_code x) = false ->
  fst (download_representation self representation output_dir w) =
    Ok (String slash rest) /\
  fs (snd (download_representation self representation output_dir w)) =
    <[String slash rest := content x]> (fs w).
Proof.
  intros Hname Hw Hmedia Hx Hok.
  rewrite (download_representation_world self representation (JStr (String slash rest))
             media_url output_dir (String slash rest) x w); try assumption.
  - split; reflexivity.
  - cbn [os_path_join]. unfold slash. now rewrite Ascii.eqb_refl.
Qed.

(** X18.  [download_results] on a job whose first representation of the
    requested content type is [r], with a file name that joins
    [output_dir] to [local_path] and a media URL whose GET is answered
    without an error status: it returns [local_path], the file at that path
    holds exactly the bytes of the answer, whatever it held before, and the
    effects are, in this order, the query, the opening of the file, the GET
    of the media, the write and the close. *)
Theorem download_results_writes_first_match (self : EmotionAPI) (job_url : json)
    (content_type output_dir local_path : string) (x y : response)
    (job_json result_json file_name media_url r : json) (pre post cts : list json)
    (w : world) :
  server w (http_log (trace w)) (get_json self job_url) = Answers x ->
  http_error (status_code x) = false ->
  json_body x = Some job_json ->
  getitem job_json "result" = Ok result_json ->
  getitem result_json "representations" = Ok (JList (pre ++ r :: post)) ->
  fields "content_type" pre = Some cts ->
  none_is content_type cts = true ->
  field_is "content_type" content_type r = true ->
  getitem r "file_name" = Ok file_name ->
  os_path_join output_dir file_name = Ok local_path ->
  writable w local_path = true ->
  getitem r "media" = Ok media_url ->
  server w (http_log (trace w) ++ [get_json self job_url]) (get_media self media_url)
    = Answers y ->
  http_error (status_code y) = false ->
  let w' := snd (download_results self job_url content_type output_dir w) in
  fst (download_results self job_url content_type output_dir w) = Ok local_path /\
  fs w' = <[local_path := content y]> (fs w) /\
  trace w' = trace w ++ [EvHttp (get_json self job_url);
                         EvOpen (next_fd w) local_path WB;
                         EvHttp (get_media self media_url);
                         EvWrite (next_fd w) (content y);
                         EvClose (next_fd w)].
Proof.
  intros Hx Hokx Hjson Hres Hreps Hf Hn Hr Hname Hjoin Hw Hmedia Hy Hoky.
  set (w1 := log_all [EvHttp (get_json self job_url)] w).
  assert (E : download_results self job_url content_type output_dir w =
              download_representation self r output_dir w1).
  { rewrite (download_results_head self job_url content_type output_dir x job_json
               result_json (pre ++ r :: post) w) by assumption.
    fold w1. unfold bind at 1.
    rewrite (download_first_some self content_type output_dir pre r post cts w1 Hf Hn Hr).
    unfold bind, ret.
    destruct (download_representation self r output_dir w1) as [[p|e] w2]; reflexivity. }
  intros w'. subst w'. rewrite E.
  rewrite (download_representation_world self r file_name media_url output_dir local_path
             y w1 Hname Hjoin Hw Hmedia).
  - cbn. repeat split. now rewrite <- app_assoc.
  - subst w1. cbn. rewrite http_log_app. exact Hy.
  - exact Hoky.
Qed.

(** *** Loops that stop in the middle *)

Lemma results_loop_prefix self pre rest : forall cts urls resps js metrics w,
  fields "content_type" pre = Some cts ->
  fields "media" (List.filter (fun r => field_is "content_type" SESSION_V0_JSON r) pre)
    = Some urls ->
  served (server w) (http_log (trace w)) (map (get_media self) urls) resps ->
  forallb (fun x => negb (http_error (status_code x))) resps = true ->
  json_bodies resps = Some js ->
  results_loop self metrics (pre ++ rest) w =
  results_loop self (List.last js metrics) rest
    (log_all (map (fun u => EvHttp (get_media self u)) urls) w).
Proof.
  induction pre as [|r l IH]; intros cts urls resps js metrics w Hct Hmedia Hsrv Hok Hjs.
  - simpl in *. injection Hmedia as <-. simpl in Hsrv.
    destruct resps; [|contradiction]. injection Hjs as <-.
    simpl. now rewrite log_all_nil.
  - simpl in Hct. destruct (getitem r "content_type") as [ct|] eqn:Er; [|discriminate].
    destruct (fields "content_type" l) as [cts'|] eqn:El; [|discriminate].
    change ((r :: l) ++ rest) with (r :: (l ++ rest)).
    cbn [results_loop]. unfold lift at 1. rewrite Er.
    rewrite (bind_ok _ _ w ct w eq_refl).
    cbn [List.filter] in Hmedia. unfold field_is at 1 in Hmedia. rewrite Er in Hmedia.
    destruct (eq_str ct SESSION_V0_JSON).
    + cbn [fields] in Hmedia.
      destruct (getitem r "media") as [u|] eqn:Eu; [|discriminate].
      destruct (fields "media" _) as [urls'|] eqn:Eurls; [|discriminate].
      injection Hmedia as <-. cbn [map served] in Hsrv.
      destruct resps as [|x resps]; [contradiction|]. destruct Hsrv as [Hx Hsrv].
      cbn [forallb] in Hok. apply andb_prop in Hok as [Hokx Hok].
      apply negb_true_iff in Hokx.
      cbn [json_bodies] in Hjs. destruct (json_body x) as [j|] eqn:Ej; [|discriminate].
      destruct (json_bodies resps) as [js'|] eqn:Ejs; [|discriminate].
      injection Hjs as <-.
      unfold lift. rewrite (bind_ok _ _ w u w eq_refl).
      fold (get_media self u).
      rewrite (bind_ok _ _ _ _ _ (send_answers _ _ _ Hx)).
      rewrite (bind_ok _ _ _ _ _ (raise_for_status_ok x _ Hokx)).
      unfold resp_json. rewrite Ej. unfold ret at 1.
      rewrite (bind_ok _ _ _ j _ eq_refl).
      rewrite (IH cts' urls' resps js' j _ eq_refl eq_refl); try assumption; try reflexivity.
      * rewrite last_cons. f_equal.
        change (map (fun u0 => EvHttp (get_media self u0)) (u :: urls'))
          with ([EvHttp (get_media self u)] ++ map (fun u0 => EvHttp (get_media self u0)) urls').
        now rewrite log_all_app.
      * simpl. rewrite http_log_app. exact Hsrv.
    + now apply (IH cts' urls resps js metrics w eq_refl).
Qed.

(** X19.  [results] stops at the first media GET that fails.  When the
    session representations before [r] have been fetched and the GET of [r],
    itself a session representation, fails with [e] (the request, its status
    or a body that is not JSON), [results] raises [e]: the bodies fetched
    before are lost, and no request is sent for what follows [r]. *)
Theorem results_stops_at_first_failure (self : EmotionAPI) (job_url : json)
    (x : response) (job_json result_json r u : json) (pre post cts urls js : list json)
    (resps : list response) (e : exn) (w : world) :
  server w (http_log (trace w)) (get_json self job_url) = Answers x ->
  http_error (status_code x) = false ->
  json_body x = Some job_json ->
  getitem job_json "result" = Ok result_json ->
  getitem result_json "representations" = Ok (JList (pre ++ r :: post)) ->
  fields "content_type" pre = Some cts ->
  fields "media" (List.filter (fun r => field_is "content_type" SESSION_V0_JSON r) pre)
    = Some urls ->
  served (server w) (http_log (trace w) ++ [get_json self job_url])
         (map (get_media self) urls) resps ->
  forallb (fun x => negb (http_error (status_code x))) resps = true ->
  json_bodies resps = Some js ->
  field_is "content_type" SESSION_V0_JSON r = true ->
  getitem r "media" = Ok u ->
  failure (server w (http_log (trace w) ++ get_json self job_url :: map (get_media self) urls)
             (get_media self u)) = Some e ->
  results self job_url w =
    (Raise e,
     log_all (EvHttp (get_json self job_url) ::
              map (fun u => EvHttp (get_media self u)) (urls ++ [u])) w).
Proof.
  intros Hx Hokx Hjson Hres Hreps Hct Hmedia Hserved Hoks Hjs Hr Hu Hfail.
  rewrite (results_head self job_url x job_json result_json (pre ++ r :: post) w)
    by assumption.
  set (w1 := log_all [EvHttp (get_json self job_url)] w).
  rewrite (results_loop_prefix self pre (r :: post) cts urls resps js (JList []) w1
             Hct Hmedia); try assumption.
  2:{ subst w1. simpl. rewrite http_log_app. exact Hserved. }
  set (w2 := log_all _ w1).
  assert (Hlog : http_log (trace w2) =
                 http_log (trace w) ++ get_json self job_url :: map (get_media self) urls).
  { subst w2 w1. simpl. rewrite !http_log_app. simpl. rewrite <- app_assoc. simpl.
    do 2 f_equal. clear. induction urls as [|a l IH]; simpl; [reflexivity | now rewrite IH]. }
  assert (Hw : log_all [EvHttp (get_media self u)] w2 =
               log_all (EvHttp (get_json self job_url) ::
                        map (fun u => EvHttp (get_media self u)) (urls ++ [u])) w).
  { subst w2 w1. rewrite <- !log_all_app. f_equal. simpl. f_equal.
    now rewrite map_app. }
  cbn [results_loop]. unfold field_is in Hr.
  destruct (getitem r "content_type") as [ct|]; [|discriminate].
  unfold lift. rewrite (bind_ok _ _ w2 ct w2 eq_refl). rewrite Hr.
  rewrite Hu. rewrite (bind_ok _ _ w2 u w2 eq_refl). fold (get_media self u).
  rewrite <- Hw. change (server w) with (server w2) in Hfail. rewrite <- Hlog in Hfail.
  unfold failure in Hfail. unfold bind, send, raise_for_status, resp_json, ret, raise.
  destruct (server w2 (http_log (trace w2)) (get_media self u)) as [y|].
  - destruct (http_error (status_code y)); [now injection Hfail as <-|].
    destruct (json_body y); [discriminate | now injection Hfail as <-].
  - now injection Hfail as <-.
Qed.

Lemma delete_matching_prefix self source key pre rest : forall srcs keys urls resps w,
  fields "source" pre = Some srcs ->
  fields "key" (List.filter (field_is "source" source) pre) = Some keys ->
  fields "self" (List.filter (is_annotation source key) pre) = Some urls ->
  served (server w) (http_log (trace w)) (map (delete_req self) urls) resps ->
  forallb (fun x => negb (http_error (status_code x))) resps = true ->
  delete_matching self source key (pre ++ rest) w =
    delete_matching self source key rest
      (log_all (map (fun u => EvHttp (delete_req self u)) urls) w).
Proof.
  induction pre as [|a l IH]; intros srcs keys urls resps w Hs Hk Hu Hsrv Hok.
  - simpl in *. injection Hu as <-. simpl. now rewrite log_all_nil.
  - cbn [fields] in Hs. destruct (getitem a "source") as [s|] eqn:Es; [|discriminate].
    destruct (fields "source" l) as [srcs'|] eqn:El; [|discriminate].
    change ((a :: l) ++ rest) with (a :: (l ++ rest)).
    cbn [delete_matching]. unfold lift at 1. rewrite Es.
    rewrite (bind_ok _ _ w s w eq_refl).
    cbn [List.filter] in Hk, Hu. unfold is_annotation at 1 in Hu.
    unfold field_is at 1 in Hk. unfold field_is at 1 in Hu. rewrite Es in Hk, Hu.
    destruct (eq_str s source).
    + cbn [fields] in Hk. destruct (getitem a "key") as [k|] eqn:Ek; [|discriminate].
      destruct (fields "key" _) as [keys'|] eqn:Ekeys; [|discriminate].
      cbv iota. rewrite bind_assoc. unfold lift at 1.
      rewrite (bind_ok _ _ w k w eq_refl).
      unfold ret at 1. rewrite (bind_ok _ _ w (eq_str k key) w eq_refl).
      cbn [andb] in Hu. unfold field_is at 1 in Hu. rewrite Ek in Hu.
      destruct (eq_str k key).
      * cbn [fields] in Hu. destruct (getitem a "self") as [su|] eqn:Eself; [|discriminate].
        destruct (fields "self" _) as [urls'|] eqn:Eurls; [|discriminate].
        injection Hu as <-. cbn [map served] in Hsrv.
        destruct resps as [|x resps]; [contradiction|]. destruct Hsrv as [Hx Hsrv].
        cbn [forallb] in Hok. apply andb_prop in Hok as [Hokx Hok].
        apply negb_true_iff in Hokx.
        cbv iota. rewrite bind_assoc. unfold lift at 1.
        rewrite (bind_ok _ _ w su w eq_refl). fold (delete_req self su).
        rewrite bind_assoc.
        rewrite (bind_ok _ _ _ _ _ (send_answers _ _ _ Hx)).
        rewrite (bind_ok _ _ _ tt _ (raise_for_status_ok x _ Hokx)).
        rewrite (IH srcs' keys' urls' resps _ eq_refl eq_refl eq_refl); try assumption.
        -- change (map (fun u0 => EvHttp (delete_req self u0)) (su :: urls'))
             with ([EvHttp (delete_req self su)] ++
                   map (fun u0 => EvHttp (delete_req self u0)) urls').
           now rewrite log_all_app.
        -- simpl. rewrite http_log_app. exact Hsrv.
      * cbv iota. unfold ret at 1. rewrite (bind_ok _ _ w tt w eq_refl).
        now apply (IH srcs' keys' urls resps w eq_refl eq_refl).
    + cbv iota. unfold ret at 1. rewrite (bind_ok _ _ w false w eq_refl).
      cbv iota. unfold ret at 1. rewrite (bind_ok _ _ w tt w eq_refl).
      now apply (IH srcs' keys urls resps w eq_refl).
Qed.

(** X20.  [delete_annotation] stops at the first DELETE that fails.  When
    the matching annotations before [a] have been deleted and the DELETE of
    [a], itself a match, fails with [e], [delete_annotation] raises [e]: the
    deletions made stay made, and no request is sent for the annotations
    that follow [a], matching or not. *)
Theorem delete_annotation_stops_at_first_failure (self : EmotionAPI) (entry u a su : json)
    (source key : string) (x : response) (pre post srcs keys urls : list json)
    (resps : list response) (e : exn) (w : world) :
  getitem entry "annotations" = Ok u ->
  server w (http_log (trace w)) (get_json self u) = Answers x ->
  http_error (status_code x) = false ->
  json_body x = Some (JList (pre ++ a :: post)) ->
  fields "source" pre = Some srcs ->
  fields "key" (List.filter (field_is "source" source) pre) = Some keys ->
  fields "self" (List.filter (is_annotation source key) pre) = Some urls ->
  served (server w) (http_log (trace w) ++ [get_json self u])
         (map (delete_req self) urls) resps ->
  forallb (fun x => negb (http_error (status_code x))) resps = true ->
  is_annotation source key a = true ->
  getitem a "self" = Ok su ->
  acknowledged (server w (http_log (trace w) ++ get_json self u :: map (delete_req self) urls)
                  (delete_req self su)) = Raise e ->
  delete_annotation self entry source key w =
    (Raise e,
     log_all (EvHttp (get_json self u) ::
              map (fun s => EvHttp (delete_req self s)) (urls ++ [su])) w).
Proof.
  intros Hu Hx Hokx Hjson Hs Hk Hself Hsrv Hok Ha Hsu Hfail.
  unfold delete_annotation, lift. rewrite Hu. rewrite (bind_ok _ _ w u w eq_refl).
  rewrite (bind_ok _ _ _ _ _
             (query_job_ok self u x (JList (pre ++ a :: post)) w Hx Hokx Hjson)).
  simpl py_iter. set (w1 := log_all _ w).
  rewrite (bind_ok _ _ w1 (pre ++ a :: post) w1 eq_refl).
  rewrite (delete_matching_prefix self source key pre (a :: post) srcs keys urls resps w1
             Hs Hk Hself); try assumption.
  2:{ subst w1. simpl. rewrite http_log_app. exact Hsrv. }
  set (w2 := log_all _ w1).
  assert (Hlog : http_log (trace w2) =
                 http_log (trace w) ++ get_json self u :: map (delete_req self) urls).
  { subst w2 w1. simpl. rewrite !http_log_app. simpl. rewrite <- app_assoc. simpl.
    do 2 f_equal. clear. induction urls as [|b l IH]; simpl; [reflexivity | now rewrite IH]. }
  assert (Hw : log_all [EvHttp (delete_req self su)] w2 =
               log_all (EvHttp (get_json self u) ::
                        map (fun s => EvHttp (delete_req self s)) (urls ++ [su])) w).
  { subst w2 w1. rewrite <- !log_all_app. f_equal. simpl. f_equal.
    now rewrite map_app. }
  cbn [delete_matching]. unfold is_annotation, field_is in Ha.
  destruct (getitem a "source") as [s|]; [|discriminate].
  destruct (getitem a "key") as [k|];
    [|rewrite andb_false_r in Ha; discriminate].
  apply andb_prop in Ha as [Hs1 Hk1].
  unfold lift. rewrite (bind_ok _ _ w2 s w2 eq_refl). rewrite Hs1.
  rewrite bind_assoc. rewrite (bind_ok _ _ w2 k w2 eq_refl).
  unfold ret at 1. rewrite (bind_ok _ _ w2 (eq_str k key) w2 eq_refl). rewrite Hk1.
  rewrite bind_assoc. rewrite Hsu. rewrite (bind_ok _ _ w2 su w2 eq_refl).
  fold (delete_req self su).
  rewrite <- Hw. change (server w) with (server w2) in Hfail. rewrite <- Hlog in Hfail.
  unfold acknowledged in Hfail. unfold bind, send, raise_for_status, ret, raise.
  destruct (server w2 (http_log (trace w2)) (delete_req self su)) as [y|].
  - destruct (http_error (status_code y)); [now injection Hfail as <-|discriminate].
  - now injection Hfail as <-.
Qed.

Lemma add_annotations_prefix self entry u pre rest : forall reqs w,
  getitem entry "annotations" = Ok u ->
  annotation_posts self u pre = Some reqs ->
  all_accepted (server w) (http_log (trace w)) reqs = true ->
  add_annotations self entry (pre ++ rest) w =
    add_annotations self entry rest (log_all (map EvHttp reqs) w).
Proof.
  induction pre as [|a l IH]; intros reqs w Hu Hp Hacc.
  - injection Hp as <-. simpl. now rewrite log_all_nil.
  - cbn [annotation_posts] in Hp.
    destruct (annotation_post self u a) as [r|] eqn:Ea; [|discriminate].
    destruct (annotation_posts self u l) as [rs|] eqn:El; [|discriminate].
    injection Hp as <-. cbn [all_accepted] in Hacc.
    change ((a :: l) ++ rest) with (a :: (l ++ rest)).
    rewrite (add_annotations_step self entry u a _ r w Hu Ea).
    destruct (failure _); [discriminate|].
    rewrite (IH rs _ Hu eq_refl).
    + change (map EvHttp (r :: rs)) with ([EvHttp r] ++ map EvHttp rs).
      now rewrite log_all_app.
    + simpl. rewrite http_log_app. exact Hacc.
Qed.

(** X21.  [add_annotations] reads the three keys of an item before it sends
    anything for it.  When the items of [pre] have been added and the item
    [a] lacks a key, or is not a dict, the error of the lookup is raised,
    [source] being looked up first, then [key], then [value]: the POSTs of
    [pre] have been sent and stay, and no request is sent for [a] or for
    what follows. *)
Theorem add_annotations_malformed_item (self : EmotionAPI) (entry u a : json)
    (pre post : list json) (reqs : list request) (e : exn) (w : world) :
  getitem entry "annotations" = Ok u ->
  annotation_posts self u pre = Some reqs ->
  all_accepted (server w) (http_log (trace w)) reqs = true ->
  annotation_fields a = Raise e ->
  add_annotations self entry (pre ++ a :: post) w =
    (Raise e, log_all (map EvHttp reqs) w).
Proof.
  intros Hu Hp Hacc Ha.
  rewrite (add_annotations_prefix self entry u pre (a :: post) reqs w Hu Hp Hacc).
  set (w1 := log_all _ w). cbn [add_annotations]. unfold annotation_fields in Ha.
  unfold lift.
  destruct (getitem a "source") as [s|e1];
    [|injection Ha as <-; now rewrite (bind_raise _ _ w1 e1 w1 eq_refl)].
  rewrite (bind_ok _ _ w1 s w1 eq_refl).
  destruct (getitem a "key") as [k|e1];
    [|injection Ha as <-; now rewrite (bind_raise _ _ w1 e1 w1 eq_refl)].
  rewrite (bind_ok _ _ w1 k w1 eq_refl).
  destruct (getitem a "value") as [v|e1];
    [discriminate | injection Ha as <-; now rewrite (bind_raise _ _ w1 e1 w1 eq_refl)].
Qed.

(** X22.  [results] has no [break]: it looks at every entry, also after a
    match.  When the entries of [pre] have been gone through, the session
    representations among them fetched, and the entry [r] has no content
    type, or is not a dict, [results] raises the error of that lookup and
    the bodies fetched are lost. *)
Theorem results_malformed_entry (self : EmotionAPI) (job_url : json)
    (x : response) (job_json result_json r : json) (pre post cts urls js : list json)
    (resps : list response) (e : exn) (w : world) :
  server w (http_log (trace w)) (get_json self job_url) = Answers x ->
  http_error (status_code x) = false ->
  json_body x = Some job_json ->
  getitem job_json "result" = Ok result_json ->
  getitem result_json "representations" = Ok (JList (pre ++ r :: post)) ->
  fields "content_type" pre = Some cts ->
  fields "media" (List.filter (fun r => field_is "content_type" SESSION_V0_JSON r) pre)
    = Some urls ->
  served (server w) (http_log (trace w) ++ [get_json self job_url])
         (map (get_media self) urls) resps ->
  forallb (fun x => negb (http_error (status_code x))) resps = true ->
  json_bodies resps = Some js ->
  getitem r "content_type" = Raise e ->
  results self job_url w =
    (Raise e,
     log_all (EvHttp (get_json self job_url) ::
              map (fun u => EvHttp (get_media self u)) urls) w).
Proof.
  intros Hx Hokx Hjson Hres Hreps Hct Hmedia Hserved Hoks Hjs Hr.
  rewrite (results_head self job_url x job_json result_json (pre ++ r :: post) w)
    by assumption.
  set (w1 := log_all [EvHttp (get_json self job_url)] w).
  rewrite (results_loop_prefix self pre (r :: post) cts urls resps js (JList []) w1
             Hct Hmedia); try assumption.
  2:{ subst w1. simpl. rewrite http_log_app. exact Hserved. }
  cbn [results_loop]. unfold lift. rewrite Hr.
  rewrite (bind_raise _ _ _ e _ eq_refl). f_equal. subst w1.
  now rewrite <- log_all_app.
Qed.

End Client.

(** ** Instances *)

(** The library functions on small inputs. *)
Example os_path_join_examples :
  os_path_join "." (JStr "metrics.csv") = Ok "./metrics.csv" /\
  os_path_join "out/" (JStr "metrics.csv") = Ok "out/metrics.csv" /\
  os_path_join "" (JStr "metrics.csv") = Ok "metrics.csv" /\
  os_path_join "out" (JStr "/tmp/metrics.csv") = Ok "/tmp/metrics.csv" /\
  os_path_join "out" JNull = Raise TypeError.
Proof. repeat split; reflexivity. Qed.

Example os_path_basename_examples :
  os_path_basename "videos/2019/video1.mp4" = "video1.mp4" /\
  os_path_basename "video1.mp4" = "video1.mp4" /\
  os_path_basename "videos/" = "".
Proof. repeat split; reflexivity. Qed.

Example str_list_example :
  str_list [JStr "application/csv"; JNull; JInt (-5); JBool true;
            JDict [("a", JList [JStr "b"])]] =
  "['application/csv', None, -5, True, {'a': ['b']}]".
Proof. reflexivity. Qed.

(** Without arguments the two variables are read, in this order. *)
Example __init___reads_environ :
  let run := __init__ None None "v1"
               (world_of {[ EAAS_USER_ENV_VAR := "bob"; EAAS_PASS_ENV_VAR := "hunter2" ]}
                  index_server) in
  fst run = Ok (mk_api "bob" "hunter2" ("bob", "hunter2") (JStr "https://jobs.example/v1")) /\
  env_reads (trace (snd run)) = [EAAS_USER_ENV_VAR; EAAS_PASS_ENV_VAR].
Proof. split; reflexivity. Qed.

Lemma explicit_credentials_ignore_environ_witness :
  let w := world_of ∅ index_server in
  let env2 : gmap string string := {[ EAAS_USER_ENV_VAR := "bob" ]} in
  let run env := __init__ (Some "alice") (Some "secret") "v1" (set_environ env w) in
  run ∅ = (Ok alice, snd (_get_job_service_url "v1" (set_environ ∅ w))) /\
  credential_reads (trace (snd (run ∅))) = credential_reads (trace w) /\
  fst (run ∅) = fst (run env2) /\
  trace (snd (run ∅)) = trace (snd (run env2)) /\
  (forall self, fst (run ∅) = Ok self ->
     _user self = "alice" /\ _password self = "secret" /\ _auth self = ("alice", "secret")).
Proof.
  refine (explicit_credentials_ignore_environ "alice" "secret" "v1" ∅
            {[ EAAS_USER_ENV_VAR := "bob" ]} (world_of ∅ index_server) _ _ _);
    [discriminate | discriminate |].
  intros name Hname _. rewrite lookup_empty. symmetry. now apply lookup_singleton_ne.
Defined.

(** On the service that serves the index document, that construction returns
    the client. *)
Example __init___alice :
  fst (__init__ (Some "alice") (Some "secret") "v1"
         (world_of {[ EAAS_USER_ENV_VAR := "bob" ]} index_server)) = Ok alice.
Proof. reflexivity. Qed.

Lemma missing_credential_raises_witness :
  exists msg,
    fst (__init__ (Some "alice") None "v1" (world_of ∅ index_server)) =
      Raise (ValueError msg) /\
    (msg = "No username provided." \/ msg = "No password provided.") /\
    http_log (trace (snd (__init__ (Some "alice") None "v1" (world_of ∅ index_server)))) =
      http_log (trace (world_of ∅ index_server)).
Proof.
  apply (missing_credential_raises (Some "alice") None "v1" (world_of ∅ index_server)).
  right. reflexivity.
Defined.

(** C2, as the specification words it, fails: a user variable set to the
    empty string resolves to a credential that is not a non-empty string, and
    construction goes through. *)
Lemma empty_environ_credential_accepted :
  ~ (forall (user password : option string) (version : string) (w : world),
       truthy (resolve user EAAS_USER_ENV_VAR (environ w)) = false \/
       truthy (resolve password EAAS_PASS_ENV_VAR (environ w)) = false ->
       exists msg, fst (__init__ user password version w) = Raise (ValueError msg)).
Proof.
  intros H.
  destruct (H None (Some "secret") "v1"
              (world_of {[ EAAS_USER_ENV_VAR := "" ]} index_server)) as [msg Hmsg].
  - left. reflexivity.
  - vm_compute in Hmsg. discriminate.
Qed.

(** What construction returns there. *)
Example __init___empty_user :
  fst (__init__ None (Some "secret") "v1"
         (world_of {[ EAAS_USER_ENV_VAR := "" ]} index_server)) =
  Ok (mk_api "" "secret" ("", "secret") (JStr "https://jobs.example/v1")).
Proof. reflexivity. Qed.

(** The first job, asked for a content type it does not have, and asked for
    the session content type, which two of its representations have. *)
Lemma download_results_enumerates_or_downloads_first_witness :
  let w1 := log_all [EvHttp (get_json alice (JStr job1_url))] demo_world in
  download_results requests_http_error alice (JStr job1_url) "text/plain" "." demo_world =
    (Raise (ValueError
       (no_match_message "text/plain"
          [JStr "application/csv"; JStr SESSION_V0_JSON; JStr SESSION_V0_JSON])), w1) /\
  download_results requests_http_error alice (JStr job1_url) SESSION_V0_JSON "out"
    demo_world =
    download_representation requests_http_error alice session_rep_a "out" w1.
Proof.
  split.
  - refine (proj1 (proj1 (download_results_enumerates_or_downloads_first
                            requests_http_error alice (JStr job1_url) "text/plain" "."
                            (ok_json job1) job1 (result_of job1_reps) job1_reps
                            demo_world _ _ _ _ _)
                     [JStr "application/csv"; JStr SESSION_V0_JSON; JStr SESSION_V0_JSON]
                     _ _)); reflexivity.
  - refine (proj2 (download_results_enumerates_or_downloads_first
                     requests_http_error alice (JStr job1_url) SESSION_V0_JSON "out"
                     (ok_json job1) job1 (result_of job1_reps) job1_reps
                     demo_world _ _ _ _ _)
              [csv_rep] session_rep_a [session_rep_b] [JStr "application/csv"]
              _ _ _ _); reflexivity.
Defined.

(** The message on the first job, asked for a content type it does not have. *)
Example download_results_message :
  fst (download_results requests_http_error alice (JStr job1_url) "text/plain" "."
         demo_world) =
  Raise (ValueError
    ("Could not match content_type 'text/plain'." +:+ LF +:+
     "Available content-types: ['application/csv', " +:+
     "'application/vnd.affectiva.session.v0+json', " +:+
     "'application/vnd.affectiva.session.v0+json']")).
Proof. reflexivity. Qed.

(** Asked for the session content type, the download is the one of the first
    of the two session representations. *)
Example download_results_first_match :
  fs (snd (download_results requests_http_error alice (JStr job1_url) SESSION_V0_JSON
             "out" demo_world)) !! "out/a.json" = Some "" /\
  fs (snd (download_results requests_http_error alice (JStr job1_url) SESSION_V0_JSON
             "out" demo_world)) !! "out/b.json" = None.
Proof. split; reflexivity. Qed.

Lemma results_empty_without_session_representation_witness :
  results requests_http_error alice (JStr job2_url) demo_world =
    (Ok (JList []), log_all [EvHttp (get_json alice (JStr job2_url))] demo_world) /\
  exists msg,
    download_results requests_http_error alice (JStr job2_url) SESSION_V0_JSON "."
      demo_world =
      (Raise (ValueError msg), log_all [EvHttp (get_json alice (JStr job2_url))] demo_world).
Proof.
  apply (results_empty_without_session_representation requests_http_error alice
           (JStr job2_url) "." (ok_json job2) job2 (result_of [csv_rep]) [csv_rep]
           [JStr "application/csv"] demo_world); reflexivity.
Defined.

(** One item, accepted; and three items, the POST of the second one
    refused: the first two POSTs are sent, the third item, which is not even
    a dict, is not looked at. *)
Lemma add_annotations_sequential_stops_at_first_failure_witness :
  let post1 := post_annotation alice (JStr annotations_url)
                 (JStr "lab") (JStr "mood") (JStr "calm") in
  let post2 := post_annotation alice (JStr annotations_url)
                 (JStr "lab") (JStr "light") (JStr "dim") in
  add_annotations requests_http_error alice job1 [new_annotation "mood" "calm"] demo_world =
    (Ok tt, log_all [EvHttp post1] demo_world) /\
  add_annotations requests_http_error alice job1
    [new_annotation "mood" "calm"; new_annotation "light" "dim"; JNull] demo_world =
    (Raise (HTTPError 500), log_all [EvHttp post1; EvHttp post2] demo_world).
Proof.
  split.
  - refine (proj1 (add_annotations_sequential_stops_at_first_failure
                     requests_http_error alice job1 (JStr annotations_url) demo_world _)
              [new_annotation "mood" "calm"]
              [post_annotation alice (JStr annotations_url)
                 (JStr "lab") (JStr "mood") (JStr "calm")] _ _); reflexivity.
  - refine (proj1 (proj2 (add_annotations_sequential_stops_at_first_failure
                            requests_http_error alice job1 (JStr annotations_url)
                            demo_world _)
                     [new_annotation "mood" "calm"] (new_annotation "light" "dim") [JNull]
                     [post_annotation alice (JStr annotations_url)
                        (JStr "lab") (JStr "mood") (JStr "calm")]
                     (post_annotation alice (JStr annotations_url)
                        (JStr "lab") (JStr "light") (JStr "dim"))
                     (HTTPError 500) _ _ _ _)); reflexivity.
Defined.

(** Two of the four listed annotations have the source [lab] and the key
    [mood]; none of the source [web] has the key [light]. *)
Lemma delete_annotation_deletes_every_match_witness :
  let listing := EvHttp (get_json alice (JStr annotations_url)) in
  let urls := [JStr "https://jobs.example/v1/1/annotations/1";
               JStr "https://jobs.example/v1/1/annotations/4"] in
  (delete_annotation requests_http_error alice job1 "lab" "mood" demo_world =
     (Ok tt, log_all (listing :: map (fun s => EvHttp (delete_req alice s)) urls)
               demo_world) /\
   length urls = length (List.filter (is_annotation "lab" "mood") listed_annotations) /\
   Forall (fun r => method r = DELETE /\ auth r = Some (_auth alice))
          (map (delete_req alice) urls)) /\
  delete_annotation requests_http_error alice job1 "web" "light" demo_world =
    (Ok tt, log_all [listing] demo_world).
Proof.
  split.
  - apply (delete_annotation_deletes_every_match requests_http_error alice job1
             (JStr annotations_url) "lab" "mood" (ok_json (JList listed_annotations))
             listed_annotations
             [JStr "lab"; JStr "lab"; JStr "web"; JStr "lab"]
             [JStr "mood"; JStr "light"; JStr "mood"]
             [JStr "https://jobs.example/v1/1/annotations/1";
              JStr "https://jobs.example/v1/1/annotations/4"]
             [mk_response 204 "" None; mk_response 204 "" None] demo_world);
      try reflexivity.
    simpl. repeat split; reflexivity.
  - refine (proj1 (delete_annotation_deletes_every_match requests_http_error alice job1
                     (JStr annotations_url) "web" "light"
                     (ok_json (JList listed_annotations)) listed_annotations
                     [JStr "lab"; JStr "lab"; JStr "web"; JStr "lab"]
                     [JStr "mood"] [] [] demo_world _ _ _ _ _ _ _ _ _));
      reflexivity || exact I.
Defined.

Lemma download_representation_error_leaves_empty_file_witness :
  let w' := snd (download_representation requests_http_error alice csv_rep "." demo_world) in
  fst (download_representation requests_http_error alice csv_rep "." demo_world) =
    Raise (HTTPError 404) /\
  trace w' = trace demo_world ++ [EvOpen (next_fd demo_world) "./metrics.csv" WB;
                                  EvHttp (get_media alice media_csv);
                                  EvClose (next_fd demo_world)] /\
  fs w' = <["./metrics.csv" := ""]> (fs demo_world) /\
  fs w' !! "./metrics.csv" = Some "" /\
  (fs demo_world !! "./metrics.csv" <> Some "" -> fs w' <> fs demo_world).
Proof.
  apply (download_representation_error_leaves_empty_file requests_http_error alice
           csv_rep (JStr "metrics.csv") media_csv "." "./metrics.csv"
           (mk_response 404 "" None) demo_world); reflexivity.
Defined.

Lemma results_gets_every_match_returns_last_witness :
  results requests_http_error alice (JStr job1_url) demo_world =
    (Ok (List.last [metrics_a; metrics_b] (JList [])),
     log_all (EvHttp (get_json alice (JStr job1_url)) ::
              map (fun u => EvHttp (get_media alice u)) [media_a; media_b]) demo_world) /\
  Forall (fun r => auth r = Some (_auth alice)) (map (get_media alice) [media_a; media_b]).
Proof.
  apply (results_gets_every_match_returns_last requests_http_error alice (JStr job1_url)
           (ok_json job1) job1 (result_of job1_reps) job1_reps
           [JStr "application/csv"; JStr SESSION_V0_JSON; JStr SESSION_V0_JSON]
           [media_a; media_b] [metrics_a; metrics_b] [ok_json metrics_a; ok_json metrics_b]
           demo_world); try reflexivity.
  simpl. repeat split; reflexivity.
Defined.

(** C8.  On a readable file, [add_representation], here with a refused
    request, and [update_representation], here with an accepted one, leave
    the handle they opened in the table of open handles and no close of it in
    the trace; [create_job], here with a refused request, has closed its
    handle. *)
Theorem upload_handles_left_open :
  let add := add_representation requests_http_error alice job1 "video2.mp4" "video/mp4"
               demo_world in
  let update := update_representation requests_http_error alice csv_rep "video2.mp4"
                  "video/mp4" demo_world in
  let create := create_job requests_http_error alice "video2.mp4" "multiface" []
                  demo_world in
  (fst add = Raise (HTTPError 500) /\
   handles (snd add) !! 0%nat = Some "video2.mp4" /\
   closed_in 0 (trace (snd add)) = false) /\
  (fst update = Ok tt /\
   handles (snd update) !! 0%nat = Some "video2.mp4" /\
   closed_in 0 (trace (snd update)) = false) /\
  (fst create = Raise (HTTPError 500) /\
   handles (snd create) !! 0%nat = None /\
   closed_in 0 (trace (snd create)) = true).
Proof. repeat split; reflexivity. Qed.

(** ** Instances of the further properties *)

Lemma __init___checks_user_first_witness :
  fst (__init__ None None "v1" (world_of ∅ index_server)) =
    Raise (ValueError "No username provided.") /\
  http_log (trace (snd (__init__ None None "v1" (world_of ∅ index_server)))) =
    http_log (trace (world_of ∅ index_server)).
Proof.
  exact (__init___checks_user_first None None "v1" (world_of ∅ index_server)
           (or_introl eq_refl)).
Defined.

Lemma __init___stores_resolved_credentials_witness :
  let w := world_of {[ EAAS_USER_ENV_VAR := "bob" ]} index_server in
  let self := mk_api "bob" "secret" ("bob", "secret") (JStr "https://jobs.example/v1") in
  resolve None EAAS_USER_ENV_VAR (environ w) = Some (_user self) /\
  resolve (Some "secret") EAAS_PASS_ENV_VAR (environ w) = Some (_password self) /\
  _auth self = (_user self, _password self).
Proof.
  apply (__init___stores_resolved_credentials None (Some "secret") "v1"
           (world_of {[ EAAS_USER_ENV_VAR := "bob" ]} index_server)).
  reflexivity.
Defined.

(** The index service answers with the status 503 and the document. *)
Lemma _get_job_service_url_ignores_status_witness :
  _get_job_service_url "v1" (world_of ∅ unavailable_index_server) =
    (Ok (JStr "https://jobs.example/v1"),
     log_all [EvHttp index_request] (world_of ∅ unavailable_index_server)) /\
  auth index_request = None.
Proof.
  apply (_get_job_service_url_ignores_status "v1"
           (mk_response 503 "" (Some index_document)) index_document
           (JDict [("jobs", JStr "https://jobs.example/v1")])
           (JStr "https://jobs.example/v1") (world_of ∅ unavailable_index_server));
    reflexivity.
Defined.

Lemma __init___unknown_version_witness :
  fst (__init__ (Some "alice") (Some "secret") "v2" (world_of ∅ index_server)) =
    Raise (KeyError "v2").
Proof.
  exact (__init___unknown_version (Some "alice") (Some "secret") "v2" "alice" "secret"
           (mk_response 200 "" (Some index_document))
           [("v1", JDict [("jobs", JStr "https://jobs.example/v1")])]
           (world_of ∅ index_server) eq_refl eq_refl eq_refl eq_refl).
Defined.

(** Every request is answered with the status 500 and a JSON body. *)
Lemma json_methods_check_status_first_witness :
  let w := world_of ∅ refusing_server in
  query_job requests_http_error alice (JStr job1_url) w =
    (Raise (HTTPError 500), log_all [EvHttp (get_json alice (JStr job1_url))] w) /\
  update_job requests_http_error alice (JStr job1_url) (Some "multiface") w =
    (Raise (HTTPError 500),
     log_all [EvHttp (patch_req alice (JStr job1_url) (name_form (Some "multiface")))] w) /\
  jobs requests_http_error alice w =
    (Raise (HTTPError 500), log_all [EvHttp (get_json alice (_job_url alice))] w) /\
  add_annotation requests_http_error alice job1 (JStr "lab") (JStr "mood") (JStr "calm") w =
    (Raise (HTTPError 500),
     log_all [EvHttp (post_annotation alice (JStr annotations_url)
                        (JStr "lab") (JStr "mood") (JStr "calm"))] w).
Proof.
  destruct (json_methods_check_status_first requests_http_error alice refused
              (world_of ∅ refusing_server) eq_refl) as (H1 & H2 & H3 & H4).
  split; [|split; [|split]].
  - exact (H1 (JStr job1_url) eq_refl).
  - exact (H2 (JStr job1_url) (Some "multiface") eq_refl).
  - exact (H3 eq_refl).
  - exact (H4 job1 (JStr annotations_url) (JStr "lab") (JStr "mood") (JStr "calm")
             eq_refl eq_refl).
Defined.

Lemma create_job_missing_file_witness :
  create_job requests_http_error alice "nothing.mp4" "multiface" [] demo_world =
    (Raise (OSError "nothing.mp4"), demo_world).
Proof.
  apply (create_job_missing_file requests_http_error alice "nothing.mp4" "multiface" []
           demo_world).
  reflexivity.
Defined.

Lemma create_job_run_witness :
  let r := job_upload alice "clips/video3.mp4" "multiface" [] "frames" in
  let w' := snd (create_job requests_http_error alice "clips/video3.mp4" "multiface" []
                   second_world) in
  fst (create_job requests_http_error alice "clips/video3.mp4" "multiface" []
         second_world) = Ok job2 /\
  trace w' = trace second_world ++
             [EvOpen (next_fd second_world) "clips/video3.mp4" RB; EvHttp r;
              EvClose (next_fd second_world)] /\
  fs w' = fs second_world.
Proof.
  exact (create_job_run requests_http_error alice "clips/video3.mp4" "multiface" "frames"
           [] second_world eq_refl).
Defined.

Lemma create_job_uploads_last_component_witness :
  exists r name dir,
    http_log (trace (snd (create_job requests_http_error alice "clips/video3.mp4"
                            "multiface" [] second_world))) =
      http_log (trace second_world) ++ [r] /\
    files r = [("entry_job[name]", mk_part None "multiface" None);
               ("entry_job[input]", mk_part (Some name) "frames" None)] /\
    contains slash name = false /\
    "clips/video3.mp4" = dir +:+ name /\
    (dir = "" \/ ends_with_slash dir = true).
Proof.
  exact (create_job_uploads_last_component requests_http_error alice "clips/video3.mp4"
           "multiface" "frames" [] second_world eq_refl).
Defined.

(** The part of that upload is named [video3.mp4]. *)
Example job_upload_file_name :
  files (job_upload alice "clips/video3.mp4" "multiface" [] "frames") =
  [("entry_job[name]", mk_part None "multiface" None);
   ("entry_job[input]", mk_part (Some "video3.mp4") "frames" None)].
Proof. reflexivity. Qed.

Lemma add_representation_opens_before_lookup_witness :
  add_representation requests_http_error alice (JDict []) "video2.mp4" "video/mp4"
    demo_world =
    (Raise (KeyError "representation_self"), alloc "video2.mp4" RB demo_world) /\
  add_representation requests_http_error alice (JDict []) "nothing.mp4" "video/mp4"
    demo_world =
    (Raise (OSError "nothing.mp4"), demo_world).
Proof.
  split.
  - exact (add_representation_opens_before_lookup requests_http_error alice (JDict [])
             "video2.mp4" "video/mp4" (KeyError "representation_self") demo_world eq_refl).
  - exact (add_representation_opens_before_lookup requests_http_error alice (JDict [])
             "nothing.mp4" "video/mp4" (KeyError "representation_self") demo_world eq_refl).
Defined.

Lemma add_representation_run_witness :
  let r := media_upload alice POST (JStr representations_url) "video2.mp4" "video/mp4"
             "bytes" in
  add_representation requests_http_error alice job1 "video2.mp4" "video/mp4" second_world =
    (Ok csv_rep, log_all [EvHttp r] (alloc "video2.mp4" RB second_world)).
Proof.
  exact (add_representation_run requests_http_error alice job1 (JStr representations_url)
           "video2.mp4" "video/mp4" "bytes" second_world eq_refl eq_refl).
Defined.

(** The PUT is answered with the status 204 and no body. *)
Lemma update_representation_run_witness :
  let r := media_upload alice PUT (JStr "https://jobs.example/v1/1/representations/1")
             "video2.mp4" "video/mp4" "bytes" in
  update_representation requests_http_error alice csv_rep "video2.mp4" "video/mp4"
    second_world =
    (Ok tt, log_all [EvHttp r] (alloc "video2.mp4" RB second_world)).
Proof.
  exact (update_representation_run requests_http_error alice csv_rep
           (JStr "https://jobs.example/v1/1/representations/1")
           "video2.mp4" "video/mp4" "bytes" second_world eq_refl eq_refl).
Defined.

Lemma download_representation_unwritable_witness :
  download_representation requests_http_error alice csv_rep "." read_only_world =
    (Raise (OSError "./metrics.csv"), read_only_world).
Proof.
  apply (download_representation_unwritable requests_http_error alice csv_rep
           (JStr "metrics.csv") "." "./metrics.csv" read_only_world); reflexivity.
Defined.

Lemma download_representation_without_media_witness :
  let rep := JDict [("file_name", JStr "x.csv")] in
  let w' := snd (download_representation requests_http_error alice rep "out" demo_world) in
  fst (download_representation requests_http_error alice rep "out" demo_world) =
    Raise (KeyError "media") /\
  trace w' = trace demo_world ++ [EvOpen (next_fd demo_world) "out/x.csv" WB;
                                  EvClose (next_fd demo_world)] /\
  fs w' = <["out/x.csv" := ""]> (fs demo_world).
Proof.
  apply (download_representation_without_media requests_http_error alice
           (JDict [("file_name", JStr "x.csv")]) (JStr "x.csv") "out" "out/x.csv"
           (KeyError "media") demo_world); reflexivity.
Defined.

Lemma download_representation_absolute_file_name_witness :
  fst (download_representation requests_http_error alice absolute_rep "out" second_world) =
    Ok "/tmp/metrics.csv" /\
  fs (snd (download_representation requests_http_error alice absolute_rep "out"
             second_world)) =
    <["/tmp/metrics.csv" := "joy,1"]> (fs second_world).
Proof.
  apply (download_representation_absolute_file_name requests_http_error alice absolute_rep
           media_csv "out" "tmp/metrics.csv" csv_bytes second_world); reflexivity.
Defined.

(** The file [out/metrics.csv], which held [old], holds the bytes. *)
Lemma download_results_writes_first_match_witness :
  let w' := snd (download_results requests_http_error alice (JStr job1_url)
                   "application/csv" "out" second_world) in
  fst (download_results requests_http_error alice (JStr job1_url) "application/csv" "out"
         second_world) = Ok "out/metrics.csv" /\
  fs w' = <["out/metrics.csv" := "joy,1"]> (fs second_world) /\
  trace w' = trace second_world ++
             [EvHttp (get_json alice (JStr job1_url));
              EvOpen (next_fd second_world) "out/metrics.csv" WB;
              EvHttp (get_media alice media_csv);
              EvWrite (next_fd second_world) "joy,1";
              EvClose (next_fd second_world)].
Proof.
  apply (download_results_writes_first_match requests_http_error alice (JStr job1_url)
           "application/csv" "out" "out/metrics.csv" (ok_json job1) csv_bytes
           job1 (result_of job1_reps) (JStr "metrics.csv") media_csv csv_rep
           [] [session_rep_a; session_rep_b] [] second_world); reflexivity.
Defined.

Lemma results_stops_at_first_failure_witness :
  results requests_http_error alice (JStr job1_url) second_world =
    (Raise (HTTPError 500),
     log_all (EvHttp (get_json alice (JStr job1_url)) ::
              map (fun u => EvHttp (get_media alice u)) ([media_a] ++ [media_b]))
       second_world).
Proof.
  apply (results_stops_at_first_failure requests_http_error alice (JStr job1_url)
           (ok_json job1) job1 (result_of job1_reps) session_rep_b media_b
           [csv_rep; session_rep_a] [] [JStr "application/csv"; JStr SESSION_V0_JSON]
           [media_a] [metrics_a] [ok_json metrics_a] (HTTPError 500) second_world);
    try reflexivity.
  simpl. repeat split; reflexivity.
Defined.

Lemma delete_annotation_stops_at_first_failure_witness :
  delete_annotation requests_http_error alice job1 "lab" "mood" second_world =
    (Raise (HTTPError 500),
     log_all (EvHttp (get_json alice (JStr annotations_url)) ::
              map (fun s => EvHttp (delete_req alice s))
                ([JStr "https://jobs.example/v1/1/annotations/1"] ++
                 [JStr "https://jobs.example/v1/1/annotations/4"])) second_world).
Proof.
  apply (delete_annotation_stops_at_first_failure requests_http_error alice job1
           (JStr annotations_url)
           (annotation "lab" "mood" "tense" "https://jobs.example/v1/1/annotations/4")
           (JStr "https://jobs.example/v1/1/annotations/4") "lab" "mood"
           (ok_json (JList listed_annotations))
           [annotation "lab" "mood" "calm" "https://jobs.example/v1/1/annotations/1";
            annotation "lab" "light" "dim" "https://jobs.example/v1/1/annotations/2";
            annotation "web" "mood" "calm" "https://jobs.example/v1/1/annotations/3"]
           [] [JStr "lab"; JStr "lab"; JStr "web"] [JStr "mood"; JStr "light"]
           [JStr "https://jobs.example/v1/1/annotations/1"]
           [mk_response 204 "" None] (HTTPError 500) second_world);
    try reflexivity.
  simpl. repeat split; reflexivity.
Defined.

(** The second item has no key [key]. *)
Lemma add_annotations_malformed_item_witness :
  add_annotations requests_http_error alice job1
    [new_annotation "mood" "calm"; JDict [("source", JStr "lab")];
     new_annotation "light" "dim"] demo_world =
    (Raise (KeyError "key"),
     log_all (map EvHttp [post_annotation alice (JStr annotations_url)
                            (JStr "lab") (JStr "mood") (JStr "calm")]) demo_world).
Proof.
  apply (add_annotations_malformed_item requests_http_error alice job1
           (JStr annotations_url) (JDict [("source", JStr "lab")])
           [new_annotation "mood" "calm"] [new_annotation "light" "dim"]
           [post_annotation alice (JStr annotations_url)
              (JStr "lab") (JStr "mood") (JStr "calm")]
           (KeyError "key") demo_world); reflexivity.
Defined.

Lemma results_malformed_entry_witness :
  results requests_http_error alice (JStr job3_url) second_world =
    (Raise (KeyError "content_type"),
     log_all (EvHttp (get_json alice (JStr job3_url)) ::
              map (fun u => EvHttp (get_media alice u)) [media_a]) second_world).
Proof.
  apply (results_malformed_entry requests_http_error alice (JStr job3_url)
           (ok_json job3) job3
           (result_of [session_rep_a; JDict [("file_name", JStr "b.json")]])
           (JDict [("file_name", JStr "b.json")])
           [session_rep_a] [] [JStr SESSION_V0_JSON] [media_a] [metrics_a]
           [ok_json metrics_a] (KeyError "content_type") second_world);
    try reflexivity.
  simpl. repeat split; reflexivity.
Defined.

Lemma create_job_releases_handle_witness :
  handles (snd (create_job requests_http_error alice "video2.mp4" "multiface" []
                  demo_world)) = handles demo_world /\
  closed_in (next_fd demo_world)
    (trace (snd (create_job requests_http_error alice "video2.mp4" "multiface" []
                   demo_world))) = true.
Proof.
  destruct (create_job_releases_handle requests_http_error alice "video2.mp4" "multiface"
              [] demo_world eq_refl) as [H1 H2].
  split; [exact H1 | apply H2; exists "bytes"; reflexivity].
Defined.

Lemma add_representation_leaves_handle_open_witness :
  let w' := snd (add_representation requests_http_error alice job1 "video2.mp4" "video/mp4"
                   second_world) in
  handles w' !! next_fd second_world = Some "video2.mp4" /\
  closed_in (next_fd second_world) (trace w') =
    closed_in (next_fd second_world) (trace second_world).
Proof.
  apply (add_representation_leaves_handle_open requests_http_error alice job1 "video2.mp4"
           "video/mp4" second_world).
  exists "bytes". reflexivity.
Defined.

Lemma update_representation_leaves_handle_open_witness :
  let w' := snd (update_representation requests_http_error alice csv_rep "video2.mp4"
                   "video/mp4" second_world) in
  handles w' !! next_fd second_world = Some "video2.mp4" /\
  closed_in (next_fd second_world) (trace w') =
    closed_in (next_fd second_world) (trace second_world).
Proof.
  apply (update_representation_leaves_handle_open requests_http_error alice csv_rep
           "video2.mp4" "video/mp4" second_world).
  exists "bytes". reflexivity.
Defined.

Lemma download_representation_ok_witness :
  fst (download_representation requests_http_error alice csv_rep "out" second_world) =
    Ok "out/metrics.csv" /\
  fs (snd (download_representation requests_http_error alice csv_rep "out" second_world)) =
    <["out/metrics.csv" := "joy,1"]> (fs second_world).
Proof.
  apply (download_representation_ok requests_http_error alice csv_rep (JStr "metrics.csv")
           media_csv "out" "out/metrics.csv" csv_bytes second_world); reflexivity.
Defined.
